(* ===== verification/_CoqProject ===== *)
-Q . S2P
Prelude.v
Types.v
Runtime.v
Async.v
Events.v
Config.v
Status.v
Dispatch.v
Attachment.v
Provider.v
Deliveries.v
Example.v
Frame.v
Lifecycle.v
Typing.v
Rollup.v
