(* ===== verification/Prelude.v ===== *)
(** * A verification development of wasapi-provider

    The repository is a BuilderBot provider for the Wasapi WhatsApp API,
    written in TypeScript.  Its parts, leaves first, and how they interact:

    - [src/src/provider/wasapi.events.ts], class [WasapiEvents]: the inbound
      event normaliser.  [eventInMsg] filters a webhook payload (direction
      ["in"], no ["g.us"] group chat), resolves the contact name through
      [getName] (a call to [contacts.getById] whose failure is swallowed),
      classifies the body by [message_type] and emits ['message'] on the
      vendor's event emitter.
    - [src/src/provider/wasapi.provider.ts], class [WasapiProvider]: the
      constructor (configuration merge and validation), [initVendor]
      (creates a new vendor emitter, serves the webhook route, awaits
      [checkStatus]; BuilderBot then bridges the new vendor), [busEvents] (the bridge that re-emits the vendor's
      events on the provider), [ctrlInMsg] (the webhook route),
      [checkStatus] (device lookup, emits ['ready'] or ['auth_failure']),
      [sendMessage] (errors propagate), [sendAttachment] (errors are
      swallowed), [fileTypeFromFile], [downloadFile] and [saveFile]
      (attachment retrieval and persistence).
    - [src/examples/events/wasapiWebhook.ts/wasapiWebhook.ts]: an Express
      webhook handler around [WasapiEvents] that answers 200 or 500.

    ** How the program is modelled

    Every operation is a program of the effect-tree monad [prog] of this
    file: a finite tree whose leaves are results or thrown JavaScript
    errors and whose nodes are requests to the environment (a call of the
    Wasapi SDK, an HTTP GET, a file write, a console line, an [emit] or an
    [on] of an event emitter).  A request node's continuation receives the
    request's answer or the error the request failed with, so that
    [try]/[catch] in the code ([catch] here) also catches failed awaited
    calls.  [run] interprets a tree against a handler that threads a world
    state; it is structural, so every operation of the program is a total,
    executable function and the termination of each handler is by
    construction.  The world ([Runtime.v]) holds the two event emitters (the
    vendor's and the provider's listener tables as [gmap string]), the
    trace of observable effects in order, the files written and the clock;
    the answers of the remote services come from an [oracle] record, over
    which every theorem quantifies.

    ** Files
    - [Prelude.v] (this file): the monad, its interpreter and laws, the
      setoid equivalence [peq] of programs, JavaScript string helpers
      ([includes], [startsWith]) and [Number.prototype.toString] on
      integers, the hint database [wasapi].
    - [Types.v]: the data of the code: [WasapiMessage], the normalised
      message, emitter payloads, SDK request and response shapes, errors.
    - [Runtime.v]: requests and answers, the event emitter ([on], [emit],
      the listener tables of BuilderBot's [EventEmitterClass]; [NewVendor]
      is [new WasapiEvents], a fresh emitter), the world, the passing of
      time ([tick]) and the request handler.
    - [Async.v]: [async] functions: [start] runs a call to its first
      awaited request, [resume] continues it when the answer comes; the
      two compose to the sequential run ([start_resume]); [async_call] is
      a call without [await], which returns the promise and never throws.
    - [Events.v], Module [WasapiEvents]: [getName], the body
      classification ([set_body_if], [classify_body]) and [eventInMsg].
    - [Config.v]: [WasapiArgs], the merged [VendorArgs], the provider state
      [ProviderState] (configuration, and whether [this.vendor] is set)
      and Module [WasapiProvider] with the defaults, the spread
      ([merge_args]) and the [constructor].
    - [Status.v]: [getClient], the [find] callback [device_matches] and
      [checkStatus], with [find_device], the specification of [find].
    - [Dispatch.v]: [sendMessage] and [sendAttachment] and their payloads.
    - [Attachment.v]: [mime.extension] over a database parameter,
      [fileTypeFromFile], [downloadFile], [path.join] and [saveFile], with
      [links] and [links.download] read separately ([download_id]).
    - [Provider.v]: [busEvents] and its registration [listenOnEvents],
      [initVendor] (its synchronous part [vendor_started], its awaited
      part [initVendor_check]), the empty hooks [beforeHttpServerInit] and
      [afterHttpServerInit], the webhook route [ctrlInMsg], the example's
      Express handler [example_webhook] with its [try]/[catch], and
      [deliver] (route, then event loop).
    - [Deliveries.v]: [route_all] hands the route [ctrlInMsg] many
      payloads in their order of arrival, [resume_all] lets the event loop
      settle the pending calls in the order their lookups answer;
      [ctrlInMsg_spec] is what one delivery does ([settles_as]).
    - [Example.v]: the example application: the [WasapiEvents] object,
      [registerWasapiWebhook] with its printing listener, and [index.ts]
      with the [||] defaults of its environment variables.
    - [Frame.v]: the requests of every operation are [good] (no [on] and
      no new vendor, every emit typed by its topic; for [initVendor], the
      requests after its new vendor), and Section [Inv] lifts a property
      of the world that good requests keep to [exec], [start], [resume]
      and the webhook route.
    - [Lifecycle.v]: the process calling the provider: a step relation
      [lstep] on the provider state, the world, the pending webhook calls
      and BuilderBot's start-up [phase] ([Idle], [Checking] while
      [initVendor] awaits the status check with its route already served,
      [Booted] once [listenOnEvents] bridged the new vendor), with its
      reachability and invariants.
    - [Typing.v]: the payloads of every emit of every run fit their topic.
    - [Rollup.v]: the build configuration [src/rollup.config.js]: the
      external modules taken from [package.json] and the [onwarn] filter.

    Each [WasapiProvider] method is a function of the [ProviderState] it
    reads and returns a program of [M]; the provider's emits go to the
    provider's table of the world, the vendor's to the vendor's, so the
    bridge of [busEvents] is visible in the trace.

    ** Theorems (PROJECT.json lists them with their claim ids)
    - the inbound path ([Events.v]): what [eventInMsg] emits for every
      kind of payload ([eventInMsg_emits_message]), the filters
      ([eventInMsg_ignores_filtered]), the body classification
      ([classify_body_spec]), [getName]'s fallback ([getName_never_throws],
      [eventInMsg_lookup_failure]), the errors of malformed payloads and
      the order of lookup and validation ([eventInMsg_malformed],
      [eventInMsg_missing_from_id]), and the two scenarios of the spec;
    - the webhook ([Provider.v]): the route answers before the message is
      emitted ([ctrlInMsg_responds_before_emit]), errors of the unawaited
      call are unhandled rejections ([deliver_rejects_after_ok],
      [example_webhook_malformed]);
    - many deliveries ([Deliveries.v]): routed by [ctrlInMsg] and
      settled in any order, they settle with exactly the outcomes of
      [inbound_spec] and, through the bridge, the vendor and the provider
      emit exactly its messages in the order of the resumes
      ([deliveries_refine]);
    - the status check ([Status.v]): exactly one outcome
      ([checkStatus_one_outcome]), which one by the device list, and a
      numeric device id never matching; [initVendor] sets the vendor before
      the check ([initVendor_checks_status]); the bridge
      ([busEvents_bridge]): what each vendor topic becomes on the provider;
    - dispatch ([Dispatch.v]): the request envelopes and the two failure
      policies;
    - configuration ([Config.v]) and attachments ([Attachment.v]): the
      validation, the extension lookup, the swallowed download errors and
      the same-millisecond file name collision, and a missing
      [links.download] fetched as ['undefined']
      ([saveFile_undefined_download]);
    - the lifecycle ([Lifecycle.v]): invariants of every run of the
      process, by induction on the step relation: the configuration and
      the absence of SDK traffic before [initVendor] ([reachable_inv]),
      and the listener tables of each start-up phase
      ([reachable_tables]); a message delivered while the status check is
      pending never reaches the provider
      ([delivery_during_check_unbridged]); once the route is served a
      delivered message is eventually emitted
      ([webhook_eventually_emits]); every emit is typed by its topic
      ([Typing.reachable_emits_typed]);
    - the example ([Example.v]): a delivered message is printed
      ([example_prints_message]), the [catch] answering 500 is never
      reached by a malformed payload ([Provider.example_webhook_malformed]),
      and a missing API key is not rejected ([main_without_key]);
    - bounds: [eventInMsg] makes at most one API request and one emit
      ([eventInMsg_bounded]);
    - the build ([Rollup.v]): the external modules are the package's
      dependency keys ([external_spec]) and the printed warnings are the
      non-[UNRESOLVED_IMPORT] ones ([printed_spec]).
    Each theorem with hypotheses has a [_witness] lemma applying it to the
    demo environment [demo_oracle] of [Runtime.v].

    ** Bounds and what is not modelled
    JavaScript numbers are modelled as [Z]: [toString] of an integer-valued
    double below 10^21 in absolute value is its decimal representation,
    which is what [js_toString] computes; ids beyond that range are not
    modelled.  No fuel is needed: every program is a finite tree.  The HTTP
    server (polka/express: route registration, body parsing, sockets),
    rollup itself and its TypeScript plugin (libraries the build
    configuration only configures), reading [package.json] and
    [dotenv]'s file reading, the code of the Wasapi SDK, axios, fs and os
    (not in the repository: their answers are the fields of the oracle,
    any answer allowed) and the [mime-types] database contents are not
    modelled; the database is a parameter.  The remaining lines of the
    sources that no definition maps are imports, type-only declarations
    already carried by the records, comments and blank lines.  [path.join] is
    modelled for a directory and a plain file name only (no [..]
    normalisation).  [Date.now()] reads the world's clock, which only the
    lifecycle's [step_tick] advances: within one operation it is one
    value.  [utils.generateRefProvider(prefix)] is the oracle's
    [ref_of prefix], one reference per prefix: the model does not
    represent that BuilderBot makes each reference unique, and no theorem
    depends on two references being equal.  BuilderBot's start-up is
    [initVendor] followed, once it resolves, by [listenOnEvents] on the
    new vendor ([Lifecycle.phase]); the HTTP server's own start
    ([beforeHttpServerInit] and [afterHttpServerInit] are empty) is not a
    step.  Asynchrony is modelled for the webhook's unawaited
    call: the lifecycle's step relation starts any number of them and
    resumes them in any order, and [Deliveries.v] gives the executable
    schedule of a batch of deliveries; the other methods are awaited by their
    callers and run to completion in one step. *)

From Stdlib Require Import ZArith DecimalString DecimalZ.
From stdpp Require Import base strings list gmap.
From Stdlib Require Import Morphisms.

Create HintDb wasapi.
Create Rewrite HintDb wasapi.

(** ** The effect-tree monad *)

Section Prog.
Context {Req : Type} {Ans : Req -> Type} {Err : Type}.

Inductive prog (A : Type) : Type :=
  | Ret (a : A)
  | Raise (e : Err)
  | Vis (r : Req) (k : Err + Ans r -> prog A).

Arguments Ret {A} a.
Arguments Raise {A} e.
Arguments Vis {A} r k.

Fixpoint bind {A B} (p : prog A) (f : A -> prog B) : prog B :=
    match p with
    | Ret a => f a
    | Raise e => Raise e
    | Vis r k => Vis r (fun x => bind (k x) f)
    end.

  (** [try { p } catch (e) { h e }] *)
Fixpoint catch {A} (p : prog A) (h : Err -> prog A) : prog A :=
    match p with
    | Ret a => Ret a
    | Raise e => h e
    | Vis r k => Vis r (fun x => catch (k x) h)
    end.

  (** [await r]: perform a request, rethrowing its failure. *)
Definition call (r : Req) : prog (Ans r) :=
    Vis r (fun x => match x with inl e => Raise e | inr a => Ret a end).

Section Run.
Context {W : Type} (h : forall r : Req, W -> (Err + Ans r) * W).

Fixpoint run {A} (p : prog A) (w : W) : (Err + A) * W :=
      match p with
      | Ret a => (inr a, w)
      | Raise e => (inl e, w)
      | Vis r k => let '(x, w') := h r w in run (k x) w'
      end.

Lemma run_bind {A B} (p : prog A) (f : A -> prog B) w :
      run (bind p f) w =
      match run p w with
      | (inl e, w') => (inl e, w')
      | (inr a, w') => run (f a) w'
      end.
    Proof.
      revert w; induction p as [a|e|r k IH]; intros w; simpl; [done|done|].
      destruct (h r w) as [x w']; apply IH.
    Qed.

Lemma run_catch {A} (p : prog A) (g : Err -> prog A) w :
      run (catch p g) w =
      match run p w with
      | (inl e, w') => run (g e) w'
      | (inr a, w') => (inr a, w')
      end.
    Proof.
      revert w; induction p as [a|e|r k IH]; intros w; simpl; [done|done|].
      destruct (h r w) as [x w']; apply IH.
    Qed.

Lemma run_call r w :
      run (call r) w = h r w.
    Proof. simpl. destruct (h r w) as [[e|a] w']; done. Qed.
End Run.

  (** Two programs are equivalent when every interpretation agrees. *)
Definition peq {A} (p q : prog A) : Prop :=
    forall (W : Type) (h : forall r : Req, W -> (Err + Ans r) * W) w,
      run h p w = run h q w.

#[export] Instance peq_equiv {A} : Equivalence (@peq A).
  Proof.
    split.
    - by intros p W h w.
    - intros p q H W h w. by rewrite H.
    - intros p q r H1 H2 W h w. by rewrite H1, H2.
  Qed.

#[export] Instance bind_proper {A B} :
    Proper (peq ==> pointwise_relation A peq ==> peq) (@bind A B).
  Proof.
    intros p q Hpq f g Hfg W h w. rewrite !run_bind, Hpq.
    destruct (run h q w) as [[e|a] w']; [done|apply Hfg].
  Qed.

#[export] Instance catch_proper {A} :
    Proper (peq ==> pointwise_relation Err peq ==> peq) (@catch A).
  Proof.
    intros p q Hpq f g Hfg W h w. rewrite !run_catch, Hpq.
    destruct (run h q w) as [[e|a] w']; [apply Hfg|done].
  Qed.

Lemma bind_ret_l {A B} (a : A) (f : A -> prog B) : peq (bind (Ret a) f) (f a).
  Proof. intros W h w. done. Qed.

Lemma bind_ret_r {A} (p : prog A) : peq (bind p Ret) p.
  Proof. intros W h w. rewrite run_bind. by destruct (run h p w) as [[]]. Qed.

Lemma bind_assoc {A B C} (p : prog A) (f : A -> prog B) (g : B -> prog C) :
    peq (bind (bind p f) g) (bind p (fun a => bind (f a) g)).
  Proof.
    intros W h w. rewrite !run_bind. destruct (run h p w) as [[e|a] w']; [done|].
    by rewrite run_bind.
  Qed.

Lemma catch_ret {A} (a : A) g : peq (catch (Ret a) g) (Ret a).
  Proof. done. Qed.

Lemma catch_raise {A} (e : Err) (g : Err -> prog A) : peq (catch (Raise e) g) (g e).
  Proof. done. Qed.
(** [xs.find(f)] with a callback that may throw: the first element the
    callback accepts, the callback's error if it throws first. *)
Fixpoint find_m {A} (f : A -> prog bool) (xs : list A) : prog (option A) :=
  match xs with
  | [] => Ret None
  | x :: xs' => bind (f x) (fun b => if b then Ret (Some x) else find_m f xs')
  end.

(** A callback that never throws makes [find_m] the pure [find]. *)
Lemma find_m_pure {A} (f : A -> prog bool) (g : A -> bool) (xs : list A) :
  (forall x, In x xs -> f x = Ret (g x)) ->
  find_m f xs = Ret (List.find g xs).
Proof.
  induction xs as [|x xs IH]; intros Hf; [done|]. simpl.
  rewrite (Hf x (or_introl eq_refl)). simpl.
  destruct (g x); [done|]. apply IH. intros y Hy. apply Hf. by right.
Qed.

(** ** Frame: programs whose requests all satisfy a predicate *)

Inductive reqs_ok (P : Req -> Prop) {A} : prog A -> Prop :=
  | ok_ret a : reqs_ok P (Ret a)
  | ok_raise e : reqs_ok P (Raise e)
  | ok_vis r k : P r -> (forall x, reqs_ok P (k x)) -> reqs_ok P (Vis r k).

Section Frame.
Context (P : Req -> Prop).

Lemma reqs_ok_bind {A B} (p : prog A) (f : A -> prog B) :
  reqs_ok P p -> (forall a, reqs_ok P (f a)) -> reqs_ok P (bind p f).
Proof.
  induction 1 as [a|e|r k Hr Hk IH]; intros Hf; simpl;
    [apply Hf|constructor|constructor; [done|intros x; by apply IH]].
Qed.

Lemma reqs_ok_catch {A} (p : prog A) (g : Err -> prog A) :
  reqs_ok P p -> (forall e, reqs_ok P (g e)) -> reqs_ok P (catch p g).
Proof.
  induction 1 as [a|e|r k Hr Hk IH]; intros Hg; simpl;
    [constructor|apply Hg|constructor; [done|intros x; by apply IH]].
Qed.

Lemma reqs_ok_call r : P r -> reqs_ok P (call r).
Proof. intros Hr. constructor; [done|]. intros [e|a]; constructor. Qed.

Lemma reqs_ok_find_m {A} (f : A -> prog bool) xs :
  (forall x, reqs_ok P (f x)) -> reqs_ok P (find_m f xs).
Proof.
  intros Hf. induction xs as [|x xs IH]; simpl; [constructor|].
  apply reqs_ok_bind; [done|]. intros []; [constructor|done].
Qed.

(** A property of the state that every allowed request preserves holds
    after the run of a program that only makes allowed requests. *)
Lemma run_frame {W} (h : forall r : Req, W -> (Err + Ans r) * W) (I : W -> Prop) {A} (p : prog A) w :
  (forall r w, P r -> I w -> I (snd (h r w))) -> reqs_ok P p -> I w -> I (snd (run h p w)).
Proof.
  intros Hh Hp. revert w. induction Hp as [a|e|r k Hr Hk IH]; intros w Hw; [done|done|].
  simpl. specialize (Hh r w Hr Hw). destruct (h r w) as [x w']. by apply IH.
Qed.
End Frame.
End Prog.

Arguments prog : clear implicits.
Arguments Ret {Req Ans Err A} a.
Arguments Raise {Req Ans Err A} e.
Arguments Vis {Req Ans Err A} r k.

#[export] Instance prog_ret {Req Ans Err} : MRet (prog Req Ans Err) := fun A a => Ret a.
#[export] Instance prog_bind {Req Ans Err} : MBind (prog Req Ans Err) :=
  fun A B f p => bind p f.

#[export] Hint Rewrite @run_bind @run_catch @run_call : wasapi.
#[export] Hint Constructors reqs_ok : wasapi.
#[export] Hint Resolve reqs_ok_bind reqs_ok_catch reqs_ok_call reqs_ok_find_m : wasapi.

(** Unfold the monad's operations into [run] and compute. *)
Ltac run_simpl :=
  unfold mbind, prog_bind, mret, prog_ret in *;
  repeat (simpl; autorewrite with wasapi; simpl).

(** ** JavaScript strings *)

Local Open Scope string_scope.

(** [s.startsWith(p)] *)
Fixpoint startsWith (s p : string) {struct p} : bool :=
  match p, s with
  | EmptyString, _ => true
  | String a p', String b s' => bool_decide (a = b) && startsWith s' p'
  | String _ _, EmptyString => false
  end.

(** [s.includes(t)]: [t] occurs at some position of [s]. *)
Fixpoint includes (s t : string) : bool :=
  startsWith s t ||
  match s with
  | EmptyString => false
  | String _ s' => includes s' t
  end.

Lemma startsWith_spec s p : startsWith s p = true <-> exists r, s = p ++ r.
Proof.
  revert s; induction p as [|a p IH]; intros s; simpl.
  - split; [intros _; by exists s|by intros].
  - destruct s as [|b s]; simpl.
    + split; [done|]. by intros [r ?].
    + rewrite andb_true_iff, bool_decide_eq_true, IH.
      split; [intros [-> [r ->]]; eauto|].
      intros [r Hr]. injection Hr as -> ->. eauto.
Qed.

Lemma includes_spec s t : includes s t = true <-> exists l r, s = l ++ t ++ r.
Proof.
  induction s as [|a s IH]; simpl; rewrite orb_true_iff, startsWith_spec.
  - split.
    + intros [[r Hr]|?]; [|done]. by exists "", r.
    + intros [[|b l] [r Hs]]; [left; eauto|done].
  - rewrite IH. split.
    + intros [[r Hr]|[l [r Hr]]]; [by exists "", r|].
      exists (String a l), r. by rewrite Hr.
    + intros [[|b l] [r Hs]]; [left; eauto|right].
      injection Hs as -> ->. eauto.
Qed.

(** ** JavaScript numbers *)

(** [n.toString()] for an integer-valued number: decimal, with a leading
    minus sign for negative numbers. *)
Definition js_toString (z : Z) : string :=
  NilEmpty.string_of_int (Z.to_int z).

(** The inverse reading of a decimal integer literal. *)
Definition js_parseInt (s : string) : option Z :=
  option_map Z.of_int (NilEmpty.int_of_string s).

Lemma js_parseInt_toString z : js_parseInt (js_toString z) = Some z.
Proof.
  unfold js_parseInt, js_toString. rewrite NilEmpty.isi. simpl. by rewrite DecimalZ.of_to.
Qed.

Lemma js_toString_inj z1 z2 : js_toString z1 = js_toString z2 -> z1 = z2.
Proof.
  intros H. apply (f_equal js_parseInt) in H. rewrite !js_parseInt_toString in H.
  by injection H.
Qed.

#[export] Hint Rewrite js_parseInt_toString : wasapi.
#[export] Hint Resolve js_toString_inj : wasapi.

(** ** Lists selected by index

    [omap (l !!.) ix] is the list of the elements of [l] at the indices
    [ix], in the order of [ix], out-of-range indices skipped: the order in
    which an event loop picks pending calls. *)

Section Select.
Local Open Scope list_scope.
Context {A B : Type}.

Lemma Forall2_select (R : A -> B -> Prop) l k (ix : list nat) :
  Forall2 R l k -> Forall2 R (omap (l !!.) ix) (omap (k !!.) ix).
Proof.
  intros Hlk. induction ix as [|i ix IH]; [constructor|]. simpl.
  destruct (l !! i) as [a|] eqn:Ha.
  - destruct (Forall2_lookup_l _ _ _ i a Hlk Ha) as [b [-> Hab]]. by constructor.
  - destruct (k !! i) as [b|] eqn:Hb; [|done].
    destruct (Forall2_lookup_r _ _ _ i b Hlk Hb) as [a [Ha' _]]. congruence.
Qed.

End Select.
