(* ===== verification/Types.v ===== *)
(** * The data of wasapi-provider

    The TypeScript types of [src/src/provider/wasapi.events.ts] and the
    shapes of the Wasapi SDK requests and responses the provider builds
    or reads.  Each TypeScript object type is a record inside a module of
    its name, so that the fields keep the source's names.  A field the
    code dereferences, and which a webhook body may omit at run time, is
    an [option] ([None] is [undefined]): the code's behaviour on such a
    payload (a [TypeError]) is part of the model. *)

From stdpp Require Import base strings list gmap.
From Stdlib Require Import ZArith.
From S2P Require Import Prelude.

Local Open Scope string_scope.

(** Errors a JavaScript computation can throw: a [TypeError] of the
    runtime (reading a property of [undefined]), an [Error] raised by the
    code with its message, an error of the SDK or of axios. *)
Inductive js_error :=
| TypeError (what : string)
| Error (msg : string)
| ApiError (status : Z) (msg : string).

#[export] Instance js_error_eq_dec : EqDecision js_error.
Proof. solve_decision. Defined.

(** The JavaScript values a configuration field can hold at run time. *)
Inductive jsval :=
| JUndefined
| JStr (s : string)
| JNum (z : Z).

#[export] Instance jsval_eq_dec : EqDecision jsval.
Proof. solve_decision. Defined.

(** [!!v]: [undefined], [""] and [0] are falsy. *)
Definition truthy (v : jsval) : bool :=
  match v with
  | JUndefined => false
  | JStr s => negb (bool_decide (s = ""))
  | JNum z => negb (bool_decide (z = 0%Z))
  end.

(** [String(v)], as a template literal [${v}] prints it. *)
Definition js_String (v : jsval) : string :=
  match v with
  | JUndefined => "undefined"
  | JStr s => s
  | JNum z => js_toString z
  end.

Module ChatStatus.
Record t := {
    conversation_status : string;
    conversation_expiration : Z
  }.
End ChatStatus.

(** [WasapiMessage['data']] (wasapi.events.ts, lines 8-29). *)
Module WasapiData.
Record t := {
    user_id : Z;
    from_id : option Z;
    message : option string;
    type : option string;
    message_type : option string;
    wa_id : option string;
    wam_id : string;
    context_wam_id : option string;
    status : string;
    caption : option string;
    filename : option string;
    origin : string;
    data : string;
    created_at : string;
    updated_at : string;
    id : Z;
    chat_status : ChatStatus.t
  }.
End WasapiData.

(** [WasapiMessage] (wasapi.events.ts, lines 6-30). *)
Module WasapiMessage.
Record t := {
    event : string;
    data : option WasapiData.t
  }.
End WasapiMessage.

(** The object [eventInMsg] emits (wasapi.events.ts, lines 57-65). *)
Module BotMessage.
Record t := {
    body : string;
    from : string;
    name : string;
    phone : string;   (** [host.phone] *)
    raw : WasapiMessage.t
  }.
End BotMessage.

(** What an [emit] carries: the normalised message, an [auth_failure]
    object [{ instructions }], the [true] of the bridge's [ready], nothing
    ([emit('ready')]), or an opaque value (the [host] payload). *)
Inductive payload :=
| PMessage (m : BotMessage.t)
| PInstructions (instructions : list string)
| PBool (b : bool)
| PUndefined
| POpaque (tag : nat).

(** [contacts.getById] answers a response object with a [data] field. *)
Module Contact.
Record t := { first_name : string }.
End Contact.

Module ContactResponse.
Record t := { data : option Contact.t }.
End ContactResponse.

(** An entry of [whatsapp.getWhatsappNumbers()].data. *)
Module Device.
Record t := {
    id : option Z;
    display_name : string;
    phone_number : string
  }.
End Device.

Module WhatsappNumbers.
Record t := { data : option (list Device.t) }.
End WhatsappNumbers.

(** The SDK's [SendMessage] and [SendAttachmentParams]. *)
Module SendMessage.
Record t := {
    message : string;
    wa_id : string;
    from_id : jsval
  }.
End SendMessage.

Module SendAttachmentParams.
Record t := {
    from_id : jsval;
    wa_id : string;
    filePath : string;
    caption : option string;
    filename : option string
  }.
End SendAttachmentParams.

(** The SDK's responses are opaque to the provider, which returns them. *)
Inductive ResponseMessageWPP := ResponseMessage (tag : nat).
Inductive ResponseAttachmentWPP := ResponseAttachment (tag : nat).

(** The part of an [AxiosResponse] that [downloadFile] reads. *)
Module AxiosResponse.
Record t := {
    content_type : option string;   (** [headers['content-type']] *)
    data : list Byte.byte
  }.
End AxiosResponse.
