(* ===== verification/Runtime.v ===== *)
(** * The runtime the provider runs in

    The requests the provider's code makes of its environment and their
    answers, BuilderBot's event emitter ([EventEmitterClass]: one listener
    table per emitter, [on] appends a listener, [emit] calls the topic's
    listeners synchronously in registration order), the world state and
    the handler that gives each request its meaning.  [exec] runs a
    program of the provider against an [oracle] (the answers of the
    Wasapi API, of the attachment store and of the file system) from a
    world.  The invariants of this file hold for every program: the trace
    only grows, and only [on] changes a listener table. *)

From stdpp Require Import base strings list gmap.
From Stdlib Require Import ZArith.
From S2P Require Import Prelude Types.

Local Open Scope string_scope.

(** The two emitters: the [WasapiEvents] vendor and the [WasapiProvider]. *)
Inductive emitter := Vendor | Provider.

#[export] Instance emitter_eq_dec : EqDecision emitter.
Proof. solve_decision. Defined.

Inductive level := LogInfo | LogError.

(** The function of an entry of [busEvents]: [(payload) => this.emit(t, payload)]
    re-emits the payload, [() => this.emit(t, v)] emits a fixed value. *)
Inductive bus_func :=
| Forward (topic : string)
| EmitConst (topic : string) (p : payload).

(** A listener of the vendor: a [busEvents] function, a subscriber of
    the application (numbered), or the console printer of the example
    ([src/examples/events/wasapiWebhook.ts/wasapiWebhook.ts], lines 22-28).
    The provider's listeners are the application's subscribers. *)
Inductive listener :=
| Bridge (f : bus_func)
| Subscriber (n : nat)
| Printer.

(** The requests. The first six are awaited I/O. *)
Inductive req :=
| GetContactById (id : option string)          (** [contacts.getById] *)
| GetWhatsappNumbers                           (** [whatsapp.getWhatsappNumbers] *)
| SendMessageReq (m : SendMessage.t)           (** [whatsapp.sendMessage] *)
| SendAttachmentReq (m : SendAttachmentParams.t) (** [whatsapp.sendAttachment] *)
| AxiosGet (url token : string)                (** [axios.get(url, {headers: {Token}})] *)
| WriteFile (path : string) (bytes : list Byte.byte) (** [fs/promises.writeFile] *)
| DateNow                                      (** [Date.now()] *)
| Tmpdir                                       (** [os.tmpdir()] *)
| GenerateRef (prefix : string)                (** [utils.generateRefProvider] *)
| ConsoleLog (lvl : level) (msg : string) (err : option js_error)
| HttpRespond (status : Z) (body : string)     (** [res.end(body)], [res.status(s).json(body)] *)
| Emit (who : emitter) (topic : string) (p : payload)
| OnVendor (topic : string) (l : listener)
| OnProvider (topic : string) (n : nat)
| NewVendor.                                   (** [new WasapiEvents(token)] *)

Definition ans (r : req) : Type :=
  match r with
  | GetContactById _ => option ContactResponse.t
  | GetWhatsappNumbers => WhatsappNumbers.t
  | SendMessageReq _ => ResponseMessageWPP
  | SendAttachmentReq _ => ResponseAttachmentWPP
  | AxiosGet _ _ => AxiosResponse.t
  | DateNow => Z
  | Tmpdir | GenerateRef _ => string
  | WriteFile _ _ | ConsoleLog _ _ _ | HttpRespond _ _ | Emit _ _ _ | OnVendor _ _
  | OnProvider _ _ | NewVendor => unit
  end.

(** The programs of the provider. *)
Abbreviation M := (prog req ans js_error).

(** What an observer of the process sees, in order: the I/O requests
    issued, the emits, the deliveries to subscribers and the console. *)
Inductive trace_event :=
| TCall (r : req)
| TEmit (who : emitter) (topic : string) (p : payload)
| TDeliver (who : emitter) (sub : nat) (topic : string) (p : payload)
| TLog (lvl : level) (msg : string) (err : option js_error).

Record world := mk_world {
  vendor_on : gmap string (list listener);
  provider_on : gmap string (list nat);
  trace : list trace_event;
  files : gmap string (list Byte.byte);
  clock : Z
}.

(** The environment's answers: a function of the request. *)
Record oracle := {
  contact_api : option string -> js_error + option ContactResponse.t;
  numbers_api : js_error + WhatsappNumbers.t;
  send_api : SendMessage.t -> js_error + ResponseMessageWPP;
  attach_api : SendAttachmentParams.t -> js_error + ResponseAttachmentWPP;
  http_get : string -> string -> js_error + AxiosResponse.t;
  fs_write : string -> list Byte.byte -> js_error + unit;
  tmp_dir : string;
  ref_of : string -> string
}.

(** ** The event emitter *)

Definition listeners {L} (m : gmap string (list L)) (topic : string) : list L :=
  default [] (m !! topic).

(** [on(event, listener)]: append to the topic's list. *)
Definition add_listener {L} (m : gmap string (list L)) (topic : string) (l : L)
  : gmap string (list L) :=
  <[topic := (listeners m topic ++ [l])%list]> m.

Definition log (w : world) (e : trace_event) : world :=
  mk_world (vendor_on w) (provider_on w) (trace w ++ [e])%list (files w) (clock w).

(** The world with a new vendor emitter, which has no listener. *)
Definition fresh_vendor (w : world) : world :=
  mk_world ∅ (provider_on w) (trace w) (files w) (clock w).

(** A millisecond passes: what [Date.now()] reads advances. *)
Definition tick (w : world) : world :=
  mk_world (vendor_on w) (provider_on w) (trace w) (files w) (clock w + 1)%Z.

(** [provider.emit(topic, p)] *)
Definition emit_provider (topic : string) (p : payload) (w : world) : world :=
  foldl (fun w n => log w (TDeliver Provider n topic p))
        (log w (TEmit Provider topic p)) (listeners (provider_on w) topic).

(** The lines the example's listener prints for [msg] (lines 23-27); it
    is only registered on ['message'], whose payload is always a message
    ([Example.v]), so other payloads print nothing here. *)
Definition printer_lines (p : payload) : list trace_event :=
  match p with
  | PMessage m =>
      [TLog LogInfo "📩 Mensaje adaptado recibido:" None;
       TLog LogInfo ("Nombre Cliente: " ++ BotMessage.name m) None;
       TLog LogInfo ("De: " ++ BotMessage.from m) None;
       TLog LogInfo ("Cuerpo: " ++ BotMessage.body m) None;
       TLog LogInfo ("Número host: " ++ BotMessage.phone m) None]
  | _ => []
  end.

Definition run_listener (topic : string) (p : payload) (w : world) (l : listener) : world :=
  match l with
  | Printer => foldl log w (printer_lines p)
  | Subscriber n => log w (TDeliver Vendor n topic p)
  | Bridge (Forward t) => emit_provider t p w
  | Bridge (EmitConst t v) => emit_provider t v w
  end.

(** [vendor.emit(topic, p)] *)
Definition emit_vendor (topic : string) (p : payload) (w : world) : world :=
  foldl (run_listener topic p) (log w (TEmit Vendor topic p))
        (listeners (vendor_on w) topic).

Definition emit (who : emitter) : string -> payload -> world -> world :=
  match who with Vendor => emit_vendor | Provider => emit_provider end.

(** ** The handler *)

(** The awaited requests: the asynchronous code suspends on them. *)
Definition suspends (r : req) : bool :=
  match r with
  | GetContactById _ | GetWhatsappNumbers | SendMessageReq _ | SendAttachmentReq _
  | AxiosGet _ _ | WriteFile _ _ => true
  | _ => false
  end.

(** The answer to a request and its effect, once it is issued. *)
Definition complete (o : oracle) (r : req) (w : world) : (js_error + ans r) * world :=
  match r as r0 return (js_error + ans r0) * world with
  | GetContactById id => (contact_api o id, w)
  | GetWhatsappNumbers => (numbers_api o, w)
  | SendMessageReq m => (send_api o m, w)
  | SendAttachmentReq m => (attach_api o m, w)
  | AxiosGet url tok => (http_get o url tok, w)
  | WriteFile path d =>
      match fs_write o path d with
      | inl e => (inl e, w)
      | inr _ => (inr tt, mk_world (vendor_on w) (provider_on w) (trace w)
                                   (<[path := d]> (files w)) (clock w))
      end
  | DateNow => (inr (clock w), w)
  | Tmpdir => (inr (tmp_dir o), w)
  | GenerateRef pre => (inr (ref_of o pre), w)
  | ConsoleLog lvl msg err => (inr tt, log w (TLog lvl msg err))
  | HttpRespond status body => (inr tt, log w (TCall (HttpRespond status body)))
  | Emit who topic p => (inr tt, emit who topic p w)
  | OnVendor topic l =>
      (inr tt, mk_world (add_listener (vendor_on w) topic l) (provider_on w)
                        (trace w) (files w) (clock w))
  | OnProvider topic n =>
      (inr tt, mk_world (vendor_on w) (add_listener (provider_on w) topic n)
                        (trace w) (files w) (clock w))
  | NewVendor => (inr tt, fresh_vendor w)
  end.

(** Issue the request (an awaited one is traced), then complete it. *)
Definition handle (o : oracle) (r : req) (w : world) : (js_error + ans r) * world :=
  complete o r (if suspends r then log w (TCall r) else w).

(** [exec o p w]: run [p] from [w] against [o]. *)
Abbreviation exec o := (run (handle o)).

(** Observations of a trace. *)
Definition emits (tr : list trace_event) : list (emitter * string * payload) :=
  omap (fun e => match e with TEmit who t p => Some (who, t, p) | _ => None end) tr.

Definition calls (tr : list trace_event) : list req :=
  omap (fun e => match e with TCall r => Some r | _ => None end) tr.

Local Open Scope list_scope.

(** The emits of one emitter, in order. *)
Definition emits_by (who : emitter) (tr : list trace_event) : list (string * payload) :=
  omap (fun e => match e with
                 | TEmit w t p => if decide (w = who) then Some (t, p) else None
                 | _ => None
                 end) tr.

(** The deliveries to one subscriber of one emitter, in order. *)
Definition delivered (who : emitter) (n : nat) (tr : list trace_event)
  : list (string * payload) :=
  omap (fun e => match e with
                 | TDeliver w m t p =>
                     if decide (w = who /\ m = n) then Some (t, p) else None
                 | _ => None
                 end) tr.

(** ** What an emit appends to the trace *)

Definition provider_events (pm : gmap string (list nat)) (topic : string) (p : payload)
  : list trace_event :=
  TEmit Provider topic p :: map (fun n => TDeliver Provider n topic p) (listeners pm topic).

Definition listener_events (pm : gmap string (list nat)) (topic : string) (p : payload)
    (l : listener) : list trace_event :=
  match l with
  | Printer => printer_lines p
  | Subscriber n => [TDeliver Vendor n topic p]
  | Bridge (Forward t) => provider_events pm t p
  | Bridge (EmitConst t v) => provider_events pm t v
  end.

Definition vendor_events (vm : gmap string (list listener)) (pm : gmap string (list nat))
    (topic : string) (p : payload) : list trace_event :=
  TEmit Vendor topic p :: mjoin (map (listener_events pm topic p) (listeners vm topic)).

(** Two worlds that differ at most in their traces. *)
Definition same_state (w1 w2 : world) : Prop :=
  vendor_on w1 = vendor_on w2 /\ provider_on w1 = provider_on w2 /\
  files w1 = files w2 /\ clock w1 = clock w2.

#[export] Instance same_state_equiv : Equivalence same_state.
Proof.
  split; [done|by intros ?? (?&?&?&?)|].
  intros ??? (?&?&?&?) (?&?&?&?). split_and!; congruence.
Qed.

Lemma log_same_state w e : same_state (log w e) w.
Proof. done. Qed.

Section EmitLemmas.
  Implicit Types (w : world).

Lemma trace_log w e : trace (log w e) = trace w ++ [e].
  Proof. done. Qed.

Lemma foldl_log {A} (f : A -> trace_event) (l : list A) w :
    same_state (foldl (fun w a => log w (f a)) w l) w /\
    trace (foldl (fun w a => log w (f a)) w l) = trace w ++ map f l.
  Proof.
    revert w; induction l as [|a l IH]; intros w; simpl.
    - split; [done|]. by rewrite app_nil_r.
    - destruct (IH (log w (f a))) as [[? [? [? ?]]] ->].
      split; [done|]. by rewrite trace_log, <-app_assoc.
  Qed.

Lemma emit_provider_spec t p w :
    same_state (emit_provider t p w) w /\
    trace (emit_provider t p w) = trace w ++ provider_events (provider_on w) t p.
  Proof.
    unfold emit_provider.
    destruct (foldl_log (fun n => TDeliver Provider n t p) (listeners (provider_on w) t)
                        (log w (TEmit Provider t p))) as [[? [? [? ?]]] ->].
    split; [done|]. by rewrite trace_log, <-app_assoc.
  Qed.

Lemma run_listener_spec t p w l :
    same_state (run_listener t p w l) w /\
    trace (run_listener t p w l) = trace w ++ listener_events (provider_on w) t p l.
  Proof.
    destruct l as [[]| |]; simpl; [apply emit_provider_spec..|done|].
    destruct (foldl_log id (printer_lines p) w) as [H1 H2].
    split; [exact H1|]. etransitivity; [exact H2|]. f_equal. apply map_id.
  Qed.

Lemma foldl_run_listener t p ls w :
    same_state (foldl (run_listener t p) w ls) w /\
    trace (foldl (run_listener t p) w ls) =
      trace w ++ mjoin (map (listener_events (provider_on w) t p) ls).
  Proof.
    revert w; induction ls as [|l ls IH]; intros w; simpl.
    - split; [done|]. by rewrite app_nil_r.
    - destruct (run_listener_spec t p w l) as [[Hv [Hp [Hf Hc]]] Ht].
      destruct (IH (run_listener t p w l)) as [[? [? [? ?]]] ->].
      split; [unfold same_state; split_and!; congruence|].
      by rewrite Ht, Hp, <-app_assoc.
  Qed.

Lemma emit_vendor_spec t p w :
    same_state (emit_vendor t p w) w /\
    trace (emit_vendor t p w) = trace w ++ vendor_events (vendor_on w) (provider_on w) t p.
  Proof.
    unfold emit_vendor.
    destruct (foldl_run_listener t p (listeners (vendor_on w) t) (log w (TEmit Vendor t p)))
      as [[? [? [? ?]]] ->].
    split; [done|]. by rewrite trace_log, <-app_assoc.
  Qed.

Lemma emits_by_deliveries who who' t p (ns : list nat) :
    emits_by who (map (fun n => TDeliver who' n t p) ns) = [].
  Proof. by induction ns. Qed.

Lemma emits_by_app who tr1 tr2 :
    emits_by who (tr1 ++ tr2) = emits_by who tr1 ++ emits_by who tr2.
  Proof. apply omap_app. Qed.

  (** Listeners of the vendor never emit on the vendor. *)
Lemma emits_by_listener_events pm t p l :
    emits_by Vendor (listener_events pm t p l) = [].
  Proof. destruct l as [[]| |]; simpl; try apply emits_by_deliveries; [done|by destruct p]. Qed.

Lemma emits_by_vendor_events vm pm t p :
    emits_by Vendor (vendor_events vm pm t p) = [(t, p)].
  Proof.
    unfold vendor_events. simpl. f_equal.
    induction (listeners vm t) as [|l ls IH]; [done|].
    simpl. by rewrite emits_by_app, emits_by_listener_events, IH.
  Qed.
Lemma calls_app tr1 tr2 : calls (tr1 ++ tr2) = calls tr1 ++ calls tr2.
  Proof. apply omap_app. Qed.

Lemma calls_provider_events pm t p : calls (provider_events pm t p) = [].
  Proof. simpl. by induction (listeners pm t). Qed.

Lemma calls_listener_events pm t p l : calls (listener_events pm t p l) = [].
  Proof. destruct l as [[]| |]; [apply calls_provider_events..|done|by destruct p]. Qed.

Lemma calls_listeners_events pm t p ls :
    calls (mjoin (map (listener_events pm t p) ls)) = [].
  Proof.
    induction ls as [|l ls IH]; [done|].
    change (calls (listener_events pm t p l ++ mjoin (map (listener_events pm t p) ls)) = []).
    by rewrite calls_app, calls_listener_events, IH.
  Qed.

  (** An emit issues no I/O request. *)
Lemma calls_vendor_events vm pm t p : calls (vendor_events vm pm t p) = [].
  Proof. apply calls_listeners_events. Qed.
End EmitLemmas.

#[export] Hint Rewrite trace_log emits_by_app emits_by_vendor_events calls_app
  calls_vendor_events calls_provider_events : wasapi.

(** ** A concrete environment, for the examples *)

(** The contact API knows every chat as ["Ana"]; the device list holds
    device [42]; sends succeed; the store serves a JPEG image. *)
Definition demo_oracle : oracle := {|
  contact_api := fun _ => inr (Some {| ContactResponse.data := Some {| Contact.first_name := "Ana" |} |});
  numbers_api := inr {| WhatsappNumbers.data :=
    Some [{| Device.id := Some 42%Z; Device.display_name := "bot";
             Device.phone_number := "5215550000" |}] |};
  send_api := fun _ => inr (ResponseMessage 1);
  attach_api := fun _ => inr (ResponseAttachment 1);
  http_get := fun _ _ => inr {| AxiosResponse.content_type := Some "image/jpeg";
                                AxiosResponse.data := [Byte.x01] |};
  fs_write := fun _ _ => inr ();
  tmp_dir := "/tmp";
  ref_of := fun t => (t ++ "__ref")%string
|}.

(** The world before anything happened. *)
Definition w0 : world := mk_world ∅ ∅ [] ∅ 0%Z.

Lemma emits_by_provider_events pm t p :
  emits_by Provider (provider_events pm t p) = [(t, p)].
Proof. simpl. f_equal. apply emits_by_deliveries. Qed.

Lemma emits_by_vendor_provider_events pm t p :
  emits_by Vendor (provider_events pm t p) = [].
Proof. simpl. apply emits_by_deliveries. Qed.

Lemma trace_emit_provider t p w :
  trace (emit_provider t p w) = trace w ++ provider_events (provider_on w) t p.
Proof. apply emit_provider_spec. Qed.

#[export] Hint Rewrite emits_by_provider_events emits_by_vendor_provider_events
  trace_emit_provider : wasapi.

(** A trace event that is not an emit. *)
Definition not_emit (e : trace_event) : bool :=
  match e with TEmit _ _ _ => false | _ => true end.

Lemma emits_by_log who w e :
  not_emit e = true -> emits_by who (trace (log w e)) = emits_by who (trace w).
Proof.
  intros He. rewrite trace_log, emits_by_app. destruct e; try done; simpl; by rewrite app_nil_r.
Qed.

Lemma emits_by_emit_provider who t p w :
  emits_by who (trace (emit_provider t p w)) =
  emits_by who (trace w) ++ (if decide (who = Provider) then [(t, p)] else []).
Proof.
  rewrite trace_emit_provider, emits_by_app.
  by destruct who; [rewrite emits_by_vendor_provider_events|rewrite emits_by_provider_events].
Qed.

Lemma emits_by_emit_vendor who t p w :
  emits_by who (trace (emit_vendor t p w)) =
  emits_by who (trace w) ++ emits_by who (vendor_events (vendor_on w) (provider_on w) t p).
Proof. by rewrite (proj2 (emit_vendor_spec t p w)), emits_by_app. Qed.
