(* ===== verification/Async.v ===== *)
(** * Asynchronous functions: running to the first [await]

    Calling an [async] function runs its body synchronously up to the
    first awaited request, which is issued; the caller then continues,
    and the body resumes when the answer arrives.  [start] is that first
    part: it returns the pending continuation ([Pending]) or the settled
    promise ([Done]: a value, or a rejection when the body threw before
    any [await]).  [resume] completes the pending request and runs the
    rest.  [start_resume] shows that starting and resuming at once is the
    sequential run [exec]; the webhook route of [Provider.v] puts the HTTP
    response between the two, and two deliveries interleave there. *)

From stdpp Require Import base strings list gmap.
From S2P Require Import Prelude Types Runtime.

Inductive task (A : Type) : Type :=
| Done (r : js_error + A)
| Pending (r : req) (k : js_error + ans r -> M A).

Arguments Done {A} r.
Arguments Pending {A} r k.

(** Run [p] until it suspends on an awaited request. *)
Fixpoint start {A} (o : oracle) (p : M A) (w : world) : task A * world :=
  match p with
  | Ret a => (Done (inr a), w)
  | Raise e => (Done (inl e), w)
  | Vis r k =>
      if suspends r then (Pending r k, log w (TCall r))
      else let '(x, w') := complete o r w in start o (k x) w'
  end.

(** Calling an [async] function without awaiting it: the body runs to its
    first [await] and the call returns the promise.  The call itself never
    throws: a throw of the body rejects the promise ([Done (inl _)]). *)
Definition async_call {A} (o : oracle) (p : M A) (w : world) : (js_error + task A) * world :=
  let '(t, w1) := start o p w in (inr t, w1).

(** The answer arrives: complete the request and run the rest. *)
Definition resume {A} (o : oracle) (t : task A) (w : world) : (js_error + A) * world :=
  match t with
  | Done r => (r, w)
  | Pending r k => let '(x, w') := complete o r w in exec o (k x) w'
  end.

(** Starting and resuming with nothing in between is the sequential run. *)
Lemma start_resume {A} o (p : M A) w :
  (let '(t, w1) := start o p w in resume o t w1) = exec o p w.
Proof.
  revert w; induction p as [a|e|r k IH]; intros w; [done|done|]. simpl.
  unfold handle. destruct (suspends r); [done|].
  destruct (complete o r w) as [x w']. apply IH.
Qed.

Lemma start_bind {A B} o (p : M A) (f : A -> M B) w :
  start o (bind p f) w =
  match start o p w with
  | (Done (inr a), w') => start o (f a) w'
  | (Done (inl e), w') => (Done (inl e), w')
  | (Pending r k, w') => (Pending r (fun x => bind (k x) f), w')
  end.
Proof.
  revert w; induction p as [a|e|r k IH]; intros w; [done|done|]. simpl.
  destruct (suspends r); [done|]. destruct (complete o r w) as [x w']. apply IH.
Qed.

Lemma start_catch {A} o (p : M A) (h : js_error -> M A) w :
  start o (catch p h) w =
  match start o p w with
  | (Done (inl e), w') => start o (h e) w'
  | (Done (inr a), w') => (Done (inr a), w')
  | (Pending r k, w') => (Pending r (fun x => catch (k x) h), w')
  end.
Proof.
  revert w; induction p as [a|e|r k IH]; intros w; [done|done|]. simpl.
  destruct (suspends r); [done|]. destruct (complete o r w) as [x w']. apply IH.
Qed.

Lemma resume_bind {A B} o r (k : js_error + ans r -> M A) (f : A -> M B) w :
  resume o (Pending r (fun x => bind (k x) f)) w =
  match resume o (Pending r k) w with
  | (inl e, w') => (inl e, w')
  | (inr a, w') => exec o (f a) w'
  end.
Proof. simpl. destruct (complete o r w) as [x w']. apply run_bind. Qed.

Lemma resume_catch {A} o r (k : js_error + ans r -> M A) (h : js_error -> M A) w :
  resume o (Pending r (fun x => catch (k x) h)) w =
  match resume o (Pending r k) w with
  | (inl e, w') => exec o (h e) w'
  | (inr a, w') => (inr a, w')
  end.
Proof. simpl. destruct (complete o r w) as [x w']. apply run_catch. Qed.

(** A body that ends in [return v], started and resumed in any worlds,
    resolves to [v] when it resolves. *)
Lemma start_then_ret {A B} o (p : M A) (v : B) w t w1 :
  start o (bind p (fun _ => Ret v)) w = (t, w1) ->
  forall w2 r w3, resume o t w2 = (inr r, w3) -> r = v.
Proof.
  rewrite start_bind. destruct (start o p w) as [[[e|a]|r k] w'].
  - by intros [= <- _] ? ? ? [= _].
  - by intros [= <- _] ? ? ? [= <- _].
  - intros [= <- _] w2 x w3. rewrite resume_bind.
    destruct (resume o (Pending r k) w2) as [[e|a] w4]; [done|]. by intros [= <- _].
Qed.
