(* ===== verification/Events.v ===== *)
(** * The inbound event normaliser: [WasapiEvents]

    [src/src/provider/wasapi.events.ts]: [getName] (lines 89-100) and
    [eventInMsg] (lines 53-72), with the chain of [if]s that replaces the
    body of a media message by a generated reference (lines 66-69).  The
    theorems give every branch of [eventInMsg]: the ignored payloads
    (outbound, group chat), the malformed ones ([TypeError]), the emitted
    message with its body, sender, name and host phone, and the name
    lookup whose failure is swallowed.  The object's fields, its
    constructor and [getClient] (lines 36-47, 80-82) hold the SDK client,
    which the model replaces by the oracle of [Runtime.v]. *)

From stdpp Require Import base strings list gmap.
From Stdlib Require Import ZArith.
From S2P Require Import Prelude Types Runtime.

Local Open Scope string_scope.
#[local] Set Warnings "-clear-no-such-hyp".

Module WasapiEvents.

(** The SDK client [new WasapiClient(token)]: the library keeps the token
    and answers through the [oracle]. *)
Module WasapiClient.
Record t := { token : string }.
End WasapiClient.

(** The fields of a [WasapiEvents] object (lines 36-37). *)
Record t := mk { wasapiClient : WasapiClient.t; token : string }.

(** [constructor(token)] (lines 43-47). *)
Definition constructor (token : string) : t :=
  mk {| WasapiClient.token := token |} token.

(** [getClient()] (lines 80-82). *)
Definition getClient (e : t) : WasapiClient.t := wasapiClient e.

(** Reading [payload.data.<prop>]: a [TypeError] when [data] is missing. *)
Definition get_data (payload : WasapiMessage.t) (prop : string) : M WasapiData.t :=
  match WasapiMessage.data payload with
  | Some d => mret d
  | None => Raise (TypeError ("Cannot read properties of undefined (reading '" ++ prop ++ "')"))
  end.

(** [getName] (lines 89-100). *)
Definition getName (payload : WasapiMessage.t) : M string :=
  catch
    (d ← get_data payload "wa_id";
     contact ← call (GetContactById (WasapiData.wa_id d));
     match contact with
     | Some c =>
         match ContactResponse.data c with
         | Some k => mret (Contact.first_name k)
         | None => Raise (TypeError "Cannot read properties of undefined (reading 'first_name')")
         end
     | None => mret "Usuario"
     end)
    (fun err =>
       call (ConsoleLog LogError "Error getting contact name:" (Some err));;
       mret "Usuario").

(** [payload.data.from_id.toString()] *)
Definition from_id_toString (d : WasapiData.t) : M string :=
  match WasapiData.from_id d with
  | Some n => mret (js_toString n)
  | None => Raise (TypeError "Cannot read properties of undefined (reading 'toString')")
  end.

(** [payload.data.wa_id.includes("g.us")] *)
Definition read_wa_id (d : WasapiData.t) : M string :=
  match WasapiData.wa_id d with
  | Some wa => mret wa
  | None => Raise (TypeError "Cannot read properties of undefined (reading 'includes')")
  end.

(** [payload.data.message || ""] *)
Definition message_or_empty (m : option string) : string :=
  match m with
  | Some s => if bool_decide (s = "") then "" else s
  | None => ""
  end.

(** One line of the chain: [if (cond) sendObj.body = utils.generateRefProvider(token)]. *)
Definition set_body_if (cond : bool) (token body : string) : M string :=
  if cond then call (GenerateRef token) else mret body.

(** Lines 66-69, in order. *)
Definition classify_body (message_type : option string) (body : string) : M string :=
  b1 ← set_body_if (bool_decide (message_type ∈ [Some "image"; Some "video"]))
                   "_event_media_" body;
  b2 ← set_body_if (bool_decide (message_type = Some "document")) "_event_document_" b1;
  b3 ← set_body_if (bool_decide (message_type = Some "audio")) "_event_voice_note_" b2;
  set_body_if (bool_decide (message_type = Some "location")) "_event_location_" b3.

(** [eventInMsg] (lines 53-72). *)
Definition eventInMsg (payload : WasapiMessage.t) : M unit :=
  d ← get_data payload "type";
  if bool_decide (WasapiData.type d <> Some "in") then mret () else
  wa ← read_wa_id d;
  if includes wa "g.us" then mret () else
  let body := message_or_empty (WasapiData.message d) in
  name ← getName payload;
  phone ← from_id_toString d;
  body' ← classify_body (WasapiData.message_type d) body;
  call (Emit Vendor "message"
          (PMessage {| BotMessage.body := body'; BotMessage.from := wa;
                       BotMessage.name := name; BotMessage.phone := phone;
                       BotMessage.raw := payload |})).

(** ** Specification *)

(** The placeholder token of a message type (spec, section 4.1). *)
Definition media_token (message_type : option string) : option string :=
  if bool_decide (message_type = Some "image" \/ message_type = Some "video")
  then Some "_event_media_"
  else if bool_decide (message_type = Some "document") then Some "_event_document_"
  else if bool_decide (message_type = Some "audio") then Some "_event_voice_note_"
  else if bool_decide (message_type = Some "location") then Some "_event_location_"
  else None.

(** The name the lookup yields for a chat id. *)
Definition contact_name (o : oracle) (wa_id : option string) : string :=
  match contact_api o wa_id with
  | inr (Some c) =>
      match ContactResponse.data c with Some k => Contact.first_name k | None => "Usuario" end
  | _ => "Usuario"
  end.

(** The lookup's failure, when it fails. *)
Definition contact_error (o : oracle) (wa_id : option string) : option js_error :=
  match contact_api o wa_id with
  | inl e => Some e
  | inr (Some c) =>
      match ContactResponse.data c with
      | Some _ => None
      | None => Some (TypeError "Cannot read properties of undefined (reading 'first_name')")
      end
  | inr None => None
  end.

(** The world after [getName]: the request, then the console line of a failure. *)
Definition name_rest (o : oracle) (wa_id : option string) (w : world) : world :=
  match contact_error o wa_id with
  | Some e => log w (TLog LogError "Error getting contact name:" (Some e))
  | None => w
  end.

Definition name_world (o : oracle) (wa_id : option string) (w : world) : world :=
  name_rest o wa_id (log w (TCall (GetContactById wa_id))).

(** The message [eventInMsg] emits for an inbound payload. *)
Definition normalized (o : oracle) (p : WasapiMessage.t) (d : WasapiData.t)
    (wa : string) (n : Z) : BotMessage.t :=
  {| BotMessage.body :=
       match media_token (WasapiData.message_type d) with
       | Some t => ref_of o t
       | None => message_or_empty (WasapiData.message d)
       end;
     BotMessage.from := wa;
     BotMessage.name := contact_name o (Some wa);
     BotMessage.phone := js_toString n;
     BotMessage.raw := p |}.

(** What [eventInMsg] promises for a payload: the error it throws, or
    the message it emits ([None]: it ignores the payload). *)
Definition inbound_spec (o : oracle) (p : WasapiMessage.t) : js_error + option BotMessage.t :=
  match WasapiMessage.data p with
  | None => inl (TypeError "Cannot read properties of undefined (reading 'type')")
  | Some d =>
      if bool_decide (WasapiData.type d <> Some "in") then inr None else
      match WasapiData.wa_id d with
      | None => inl (TypeError "Cannot read properties of undefined (reading 'includes')")
      | Some wa =>
          if includes wa "g.us" then inr None else
          match WasapiData.from_id d with
          | None => inl (TypeError "Cannot read properties of undefined (reading 'toString')")
          | Some n => inr (Some (normalized o p d wa n))
          end
      end
  end.

Definition spec_result (r : js_error + option BotMessage.t) : js_error + unit :=
  match r with inl e => inl e | inr _ => inr () end.

Definition spec_emits (r : js_error + option BotMessage.t) : list (string * payload) :=
  match r with inr (Some m) => [("message", PMessage m)] | _ => [] end.

Local Open Scope list_scope.

Section Proofs.
Context (o : oracle).

Lemma getName_run (p : WasapiMessage.t) (d : WasapiData.t) w :
  WasapiMessage.data p = Some d ->
  exec o (getName p) w =
  (inr (contact_name o (WasapiData.wa_id d)), name_world o (WasapiData.wa_id d) w).
Proof.
  intros Hd. unfold getName, get_data, name_world, name_rest, contact_name, contact_error.
  rewrite Hd. run_simpl.
  destruct (contact_api o (WasapiData.wa_id d)) as [e|[[[k|]]|]]; reflexivity.
Qed.

Lemma classify_body_ref (mt : option string) (body : string) :
  peq (classify_body mt body)
      (match media_token mt with Some t => call (GenerateRef t) | None => mret body end).
Proof.
  intros W h w. unfold classify_body, media_token, set_body_if.
  repeat case_bool_decide; run_simpl;
    try (destruct (h _ w) as [[]]; reflexivity); try reflexivity;
    exfalso; set_solver.
Qed.

(** A payload without [data] makes [eventInMsg] throw a [TypeError]
    before any request, emit or console line. *)
Theorem eventInMsg_malformed (p : WasapiMessage.t) w :
  WasapiMessage.data p = None ->
  exec o (eventInMsg p) w =
  (inl (TypeError "Cannot read properties of undefined (reading 'type')"), w).
Proof. intros Hd. unfold eventInMsg, get_data. rewrite Hd. by run_simpl. Qed.

Lemma eventInMsg_outbound (p : WasapiMessage.t) d w :
  WasapiMessage.data p = Some d -> WasapiData.type d <> Some "in" ->
  exec o (eventInMsg p) w = (inr (), w).
Proof.
  intros Hd Ht. unfold eventInMsg, get_data. rewrite Hd. run_simpl.
  by rewrite bool_decide_true.
Qed.

Lemma eventInMsg_group (p : WasapiMessage.t) d wa w :
  WasapiMessage.data p = Some d -> WasapiData.type d = Some "in" ->
  WasapiData.wa_id d = Some wa -> includes wa "g.us" = true ->
  exec o (eventInMsg p) w = (inr (), w).
Proof.
  intros Hd Ht Hw Hg. unfold eventInMsg, get_data, read_wa_id.
  rewrite Hd. run_simpl. rewrite Ht, Hw. run_simpl. by rewrite Hg.
Qed.

Lemma eventInMsg_inbound_run (p : WasapiMessage.t) d wa n w :
  WasapiMessage.data p = Some d -> WasapiData.type d = Some "in" ->
  WasapiData.wa_id d = Some wa -> includes wa "g.us" = false ->
  WasapiData.from_id d = Some n ->
  exec o (eventInMsg p) w =
  (inr (), emit_vendor "message" (PMessage (normalized o p d wa n)) (name_world o (Some wa) w)).
Proof.
  intros Hd Ht Hw Hg Hn. unfold eventInMsg, get_data, read_wa_id.
  rewrite Hd. run_simpl. rewrite Ht, Hw. run_simpl. rewrite Hg.
  rewrite run_bind, (getName_run p d) by done. rewrite Hw.
  unfold from_id_toString. rewrite Hn. run_simpl.
  rewrite classify_body_ref. unfold normalized.
  by destruct (media_token (WasapiData.message_type d)).
Qed.

Lemma name_world_spec wa_id w :
  same_state (name_world o wa_id w) w /\
  emits_by Vendor (trace (name_world o wa_id w)) = emits_by Vendor (trace w) /\
  calls (trace (name_world o wa_id w)) = calls (trace w) ++ [GetContactById wa_id].
Proof.
  unfold name_world, name_rest, calls, emits_by.
  destruct (contact_error o wa_id); simpl; rewrite ?omap_app; simpl;
    rewrite ?omap_app; simpl; rewrite ?app_nil_r; done.
Qed.

(** What [eventInMsg] leaves observable after the lookup and the emit. *)
Lemma emit_after_name wa_id (m : payload) w :
  let w' := emit_vendor "message" m (name_world o wa_id w) in
  emits_by Vendor (trace w') = emits_by Vendor (trace w) ++ [("message", m)] /\
  calls (trace w') = calls (trace w) ++ [GetContactById wa_id] /\
  vendor_on w' = vendor_on w /\ provider_on w' = provider_on w.
Proof.
  destruct (name_world_spec wa_id w) as [[Hv [Hp _]] [He Hc]].
  destruct (emit_vendor_spec "message" m (name_world o wa_id w)) as [[Hv' [Hp' _]] Ht'].
  simpl. rewrite Ht', emits_by_app, emits_by_vendor_events, He, calls_app, Hc,
    calls_vendor_events, app_nil_r.
  split_and!; congruence.
Qed.

(** The run of [eventInMsg] on any payload, in closed form. *)
Lemma eventInMsg_run (p : WasapiMessage.t) w :
  exec o (eventInMsg p) w =
  match WasapiMessage.data p with
  | None => (inl (TypeError "Cannot read properties of undefined (reading 'type')"), w)
  | Some d =>
      if bool_decide (WasapiData.type d <> Some "in") then (inr (), w) else
      match WasapiData.wa_id d with
      | None => (inl (TypeError "Cannot read properties of undefined (reading 'includes')"), w)
      | Some wa =>
          if includes wa "g.us" then (inr (), w) else
          match WasapiData.from_id d with
          | None => (inl (TypeError "Cannot read properties of undefined (reading 'toString')"),
                     name_world o (Some wa) w)
          | Some n => (inr (), emit_vendor "message" (PMessage (normalized o p d wa n))
                                 (name_world o (Some wa) w))
          end
      end
  end.
Proof.
  destruct (WasapiMessage.data p) as [d|] eqn:Hd; [|unfold eventInMsg, get_data; rewrite Hd; by run_simpl].
  case_bool_decide as Ht; [by apply (eventInMsg_outbound p d)|].
  assert (Ht' : WasapiData.type d = Some "in") by (by destruct (WasapiData.type d) as [[]|]; try tauto; apply dec_stable).
  destruct (WasapiData.wa_id d) as [wa|] eqn:Hw.
  2:{ unfold eventInMsg, get_data, read_wa_id. rewrite Hd. run_simpl. rewrite Ht', Hw. by run_simpl. }
  destruct (includes wa "g.us") eqn:Hg; [by apply (eventInMsg_group p d wa)|].
  destruct (WasapiData.from_id d) as [n|] eqn:Hn; [by apply eventInMsg_inbound_run|].
  unfold eventInMsg, get_data, read_wa_id.
  rewrite Hd. run_simpl. rewrite Ht', Hw. run_simpl. rewrite Hg.
  rewrite run_bind, (getName_run p d) by done. rewrite Hw.
  unfold from_id_toString. by rewrite Hn.
Qed.

(** C1: [eventInMsg] refines [inbound_spec] on every payload: it throws
    exactly the error the specification gives, and the emits it adds on
    the vendor are exactly the message the specification gives (one
    ['message'] or none). *)
Theorem eventInMsg_refines (p : WasapiMessage.t) w :
  exists w', exec o (eventInMsg p) w = (spec_result (inbound_spec o p), w') /\
    emits_by Vendor (trace w') = emits_by Vendor (trace w) ++ spec_emits (inbound_spec o p).
Proof.
  rewrite eventInMsg_run. unfold inbound_spec.
  destruct (WasapiMessage.data p) as [d|]; [|by eexists; rewrite app_nil_r].
  case_bool_decide; [by eexists; rewrite app_nil_r|].
  destruct (WasapiData.wa_id d) as [wa|]; [|by eexists; rewrite app_nil_r].
  destruct (includes wa "g.us"); [by eexists; rewrite app_nil_r|].
  destruct (WasapiData.from_id d) as [n|].
  - eexists; split; [done|]. apply emit_after_name.
  - eexists; split; [done|]. rewrite app_nil_r. apply name_world_spec.
Qed.

(** C2: an inbound payload from a non-group chat with a sender device id
    makes [eventInMsg] resolve the name with exactly one contact lookup and
    emit exactly one ['message'] on the vendor, carrying the normalised
    message: the placeholder reference or the text as body, the chat id as
    [from], the looked-up name, the decimal device id as [host.phone] and
    the payload as [raw]; no listener table changes. *)
Theorem eventInMsg_emits_message (p : WasapiMessage.t) d wa n w :
  WasapiMessage.data p = Some d -> WasapiData.type d = Some "in" ->
  WasapiData.wa_id d = Some wa -> includes wa "g.us" = false ->
  WasapiData.from_id d = Some n ->
  exists w', exec o (eventInMsg p) w = (inr (), w') /\
    emits_by Vendor (trace w') =
      emits_by Vendor (trace w) ++ [("message", PMessage (normalized o p d wa n))] /\
    calls (trace w') = calls (trace w) ++ [GetContactById (Some wa)] /\
    vendor_on w' = vendor_on w /\ provider_on w' = provider_on w.
Proof.
  intros Hd Ht Hw Hg Hn. rewrite (eventInMsg_inbound_run p d wa n w) by done.
  eexists; split; [done|]. apply emit_after_name.
Qed.

(** C3: [eventInMsg] ignores a payload that is not inbound, or whose chat
    id contains the group marker ["g.us"]: it returns without any request,
    emit or console line. *)
Theorem eventInMsg_ignores_filtered (p : WasapiMessage.t) d w :
  WasapiMessage.data p = Some d ->
  WasapiData.type d <> Some "in" \/
  (exists wa, WasapiData.type d = Some "in" /\ WasapiData.wa_id d = Some wa /\
              includes wa "g.us" = true) ->
  exec o (eventInMsg p) w = (inr (), w).
Proof.
  intros Hd [Ht|[wa [Ht [Hw Hg]]]];
    [by apply (eventInMsg_outbound p d)|by apply (eventInMsg_group p d wa)].
Qed.

(** C9: the chain of [if]s of [eventInMsg] gives an image or a video the
    reference generated for ["_event_media_"], a document the one for
    ["_event_document_"], an audio the one for ["_event_voice_note_"], a
    location the one for ["_event_location_"], and keeps the body of any
    other message type; it has no other effect. *)
Theorem classify_body_spec (mt : option string) (body : string) w :
  exec o (classify_body mt body) w =
  (inr (if bool_decide (mt = Some "image" \/ mt = Some "video") then ref_of o "_event_media_"
        else if bool_decide (mt = Some "document") then ref_of o "_event_document_"
        else if bool_decide (mt = Some "audio") then ref_of o "_event_voice_note_"
        else if bool_decide (mt = Some "location") then ref_of o "_event_location_"
        else body), w).
Proof.
  rewrite classify_body_ref. unfold media_token.
  by repeat case_bool_decide.
Qed.

(** C10: [getName] never throws: its result is the contact's first name
    when the lookup answers a contact with data, and ["Usuario"] in every
    other case (no payload data, an absent contact, a failed lookup). *)
Theorem getName_never_throws (p : WasapiMessage.t) w :
  fst (exec o (getName p) w) =
  inr (match WasapiMessage.data p with
       | Some d => contact_name o (WasapiData.wa_id d)
       | None => "Usuario"
       end).
Proof.
  destruct (WasapiMessage.data p) as [d|] eqn:Hd; [by rewrite (getName_run p d)|].
  unfold getName, get_data. rewrite Hd. by run_simpl.
Qed.

(** C11: when the contact lookup fails, [eventInMsg] logs the error and
    still emits exactly one ['message'], whose name is ["Usuario"]. *)
Theorem eventInMsg_lookup_failure (p : WasapiMessage.t) d wa n e w :
  WasapiMessage.data p = Some d -> WasapiData.type d = Some "in" ->
  WasapiData.wa_id d = Some wa -> includes wa "g.us" = false ->
  WasapiData.from_id d = Some n -> contact_api o (Some wa) = inl e ->
  exists w' m, exec o (eventInMsg p) w = (inr (), w') /\
    emits_by Vendor (trace w') = emits_by Vendor (trace w) ++ [("message", PMessage m)] /\
    BotMessage.name m = "Usuario" /\
    TLog LogError "Error getting contact name:" (Some e) ∈ trace w'.
Proof.
  intros Hd Ht Hw Hg Hn He. rewrite (eventInMsg_inbound_run p d wa n w) by done.
  do 2 eexists; split; [done|]. split; [apply emit_after_name|].
  split; [unfold normalized, contact_name; by rewrite He|].
  destruct (emit_vendor_spec "message" (PMessage (normalized o p d wa n))
              (name_world o (Some wa) w)) as [_ ->].
  unfold name_world, name_rest, contact_error. rewrite He. set_solver.
Qed.

(** C26: an inbound payload without [from_id] makes [eventInMsg] throw a
    [TypeError] after the contact lookup was issued, and nothing is
    emitted. *)
Theorem eventInMsg_missing_from_id (p : WasapiMessage.t) d wa w :
  WasapiMessage.data p = Some d -> WasapiData.type d = Some "in" ->
  WasapiData.wa_id d = Some wa -> includes wa "g.us" = false ->
  WasapiData.from_id d = None ->
  exists w', exec o (eventInMsg p) w =
    (inl (TypeError "Cannot read properties of undefined (reading 'toString')"), w') /\
    emits_by Vendor (trace w') = emits_by Vendor (trace w) /\
    calls (trace w') = calls (trace w) ++ [GetContactById (Some wa)].
Proof.
  intros Hd Ht Hw Hg Hn. unfold eventInMsg, get_data, read_wa_id.
  rewrite Hd. run_simpl. rewrite Ht, Hw. run_simpl. rewrite Hg.
  rewrite run_bind, (getName_run p d) by done. rewrite Hw.
  unfold from_id_toString. rewrite Hn. simpl.
  eexists; split; [done|]. apply name_world_spec.
Qed.

(** An emit-free run: the vendor's emits are unchanged. *)
Lemma emits_by_app_single (l : list (string * payload)) x :
  l = l ++ [x] -> False.
Proof. intros H. apply (f_equal length) in H. rewrite length_app in H. simpl in H. lia. Qed.

(** C16: the [host.phone] of a message [eventInMsg] emits reads back, as a
    decimal integer, as the payload's [from_id]; its [from] is the chat id
    and its [raw] is the payload itself. *)
Theorem eventInMsg_phone_roundtrip (p : WasapiMessage.t) w w' m :
  exec o (eventInMsg p) w = (inr (), w') ->
  emits_by Vendor (trace w') = emits_by Vendor (trace w) ++ [("message", PMessage m)] ->
  exists d n, WasapiMessage.data p = Some d /\ WasapiData.from_id d = Some n /\
    js_parseInt (BotMessage.phone m) = Some n /\
    WasapiData.wa_id d = Some (BotMessage.from m) /\ BotMessage.raw m = p.
Proof.
  rewrite eventInMsg_run.
  destruct (WasapiMessage.data p) as [d|] eqn:Hd; [|done].
  case_bool_decide; [intros [= <-] He; by apply emits_by_app_single in He|].
  destruct (WasapiData.wa_id d) as [wa|] eqn:Hw; [|done].
  destruct (includes wa "g.us"); [intros [= <-] He; by apply emits_by_app_single in He|].
  destruct (WasapiData.from_id d) as [n|] eqn:Hn; [|done].
  intros [= <-]. rewrite (proj1 (emit_after_name _ _ _)).
  intros [= <-]%app_inv_head. exists d, n.
  split_and!; [done|done|apply js_parseInt_toString|done|done].
Qed.

(** C17: whatever the payload, [eventInMsg] settles (it returns or throws)
    after at most one request to the API (the contact lookup) and at most
    one emit on the vendor. *)
Theorem eventInMsg_bounded (p : WasapiMessage.t) w :
  exists r w', exec o (eventInMsg p) w = (r, w') /\
    length (calls (trace w')) <= S (length (calls (trace w))) /\
    length (emits_by Vendor (trace w')) <= S (length (emits_by Vendor (trace w))).
Proof.
  rewrite eventInMsg_run.
  destruct (WasapiMessage.data p) as [d|]; [|do 2 eexists; split; [done|lia]].
  case_bool_decide; [do 2 eexists; split; [done|lia]|].
  destruct (WasapiData.wa_id d) as [wa|]; [|do 2 eexists; split; [done|lia]].
  destruct (includes wa "g.us"); [do 2 eexists; split; [done|lia]|].
  destruct (WasapiData.from_id d) as [n|]; do 2 eexists; (split; [done|]).
  - destruct (emit_after_name (Some wa) (PMessage (normalized o p d wa n)) w) as [He [Hc _]].
    rewrite He, Hc, !length_app. simpl. lia.
  - destruct (name_world_spec (Some wa) w) as [_ [He Hc]].
    rewrite He, Hc, !length_app. simpl. lia.
Qed.

End Proofs.

(** ** Examples and witnesses *)

Definition demo_data (ty mt wa msg : option string) (from : option Z) : WasapiData.t := {|
  WasapiData.user_id := 1; WasapiData.from_id := from; WasapiData.message := msg;
  WasapiData.type := ty; WasapiData.message_type := mt; WasapiData.wa_id := wa;
  WasapiData.wam_id := "wamid.1"; WasapiData.context_wam_id := None;
  WasapiData.status := "received"; WasapiData.caption := None;
  WasapiData.filename := None; WasapiData.origin := "whatsapp"; WasapiData.data := "";
  WasapiData.created_at := "2024-01-01T00:00:00Z";
  WasapiData.updated_at := "2024-01-01T00:00:00Z"; WasapiData.id := 7;
  WasapiData.chat_status := {| ChatStatus.conversation_status := "open";
                               ChatStatus.conversation_expiration := 0 |} |}.

Definition hola_data : WasapiData.t :=
  demo_data (Some "in") (Some "text") (Some "521555@c.us") (Some "hola") (Some 999%Z).
Definition hola_payload : WasapiMessage.t :=
  {| WasapiMessage.event := "message"; WasapiMessage.data := Some hola_data |}.

Definition group_data : WasapiData.t :=
  demo_data (Some "in") (Some "text") (Some "1234-abc@g.us") (Some "hola") (Some 999%Z).
Definition group_payload : WasapiMessage.t :=
  {| WasapiMessage.event := "message"; WasapiMessage.data := Some group_data |}.

Definition image_data : WasapiData.t :=
  demo_data (Some "in") (Some "image") (Some "521555@c.us") None (Some 999%Z).
Definition image_payload : WasapiMessage.t :=
  {| WasapiMessage.event := "message"; WasapiMessage.data := Some image_data |}.

Lemma eventInMsg_emits_message_witness :
  exists w', exec demo_oracle (eventInMsg image_payload) w0 = (inr (), w') /\
    emits_by Vendor (trace w') = emits_by Vendor (trace w0) ++
      [("message", PMessage (normalized demo_oracle image_payload image_data "521555@c.us" 999))] /\
    calls (trace w') = calls (trace w0) ++ [GetContactById (Some "521555@c.us")] /\
    vendor_on w' = vendor_on w0 /\ provider_on w' = provider_on w0.
Proof. apply (eventInMsg_emits_message demo_oracle image_payload image_data); reflexivity. Defined.

Lemma eventInMsg_ignores_filtered_witness :
  exec demo_oracle (eventInMsg group_payload) w0 = (inr (), w0).
Proof.
  apply (eventInMsg_ignores_filtered demo_oracle group_payload group_data); [reflexivity|].
  right. exists "1234-abc@g.us". split_and!; reflexivity.
Defined.

Lemma eventInMsg_lookup_failure_witness :
  let o := {| contact_api := fun _ => inl (ApiError 404 "Not Found");
              numbers_api := numbers_api demo_oracle; send_api := send_api demo_oracle;
              attach_api := attach_api demo_oracle; http_get := http_get demo_oracle;
              fs_write := fs_write demo_oracle; tmp_dir := tmp_dir demo_oracle;
              ref_of := ref_of demo_oracle |} in
  exists w' m, exec o (eventInMsg hola_payload) w0 = (inr (), w') /\
    emits_by Vendor (trace w') = emits_by Vendor (trace w0) ++ [("message", PMessage m)] /\
    BotMessage.name m = "Usuario" /\
    TLog LogError "Error getting contact name:" (Some (ApiError 404 "Not Found")) ∈ trace w'.
Proof. intros o. apply (eventInMsg_lookup_failure o hola_payload hola_data "521555@c.us" 999); reflexivity. Defined.

Lemma eventInMsg_malformed_witness :
  exec demo_oracle (eventInMsg {| WasapiMessage.event := "message"; WasapiMessage.data := None |}) w0 =
  (inl (TypeError "Cannot read properties of undefined (reading 'type')"), w0).
Proof. apply eventInMsg_malformed. reflexivity. Defined.

Lemma eventInMsg_phone_roundtrip_witness :
  let m := normalized demo_oracle hola_payload hola_data "521555@c.us" 999 in
  let w' := snd (exec demo_oracle (eventInMsg hola_payload) w0) in
  exec demo_oracle (eventInMsg hola_payload) w0 = (inr (), w') /\
  emits_by Vendor (trace w') = emits_by Vendor (trace w0) ++ [("message", PMessage m)] /\
  exists d n, WasapiMessage.data hola_payload = Some d /\ WasapiData.from_id d = Some n /\
    js_parseInt (BotMessage.phone m) = Some n /\
    WasapiData.wa_id d = Some (BotMessage.from m) /\ BotMessage.raw m = hola_payload.
Proof.
  intros m w'. split; [reflexivity|]. split; [reflexivity|].
  apply (eventInMsg_phone_roundtrip demo_oracle hola_payload w0 w'); reflexivity.
Defined.

Lemma eventInMsg_missing_from_id_witness :
  let d := demo_data (Some "in") (Some "text") (Some "521555@c.us") (Some "hola") None in
  exists w', exec demo_oracle (eventInMsg {| WasapiMessage.event := "message"; WasapiMessage.data := Some d |}) w0 =
    (inl (TypeError "Cannot read properties of undefined (reading 'toString')"), w') /\
    emits_by Vendor (trace w') = emits_by Vendor (trace w0) /\
    calls (trace w') = calls (trace w0) ++ [GetContactById (Some "521555@c.us")].
Proof. intros d. apply (eventInMsg_missing_from_id demo_oracle _ d); reflexivity. Defined.

(** The scenario of the specification: the inbound text ["hola"] from
    ["521555@c.us"] sent to device [999] is emitted with body ["hola"], from
    ["521555@c.us"] and host phone ["999"], whatever the environment. *)
Theorem eventInMsg_hola_scenario (o : oracle) w :
  exists w', exec o (eventInMsg hola_payload) w = (inr (), w') /\
    emits_by Vendor (trace w') = emits_by Vendor (trace w) ++
      [("message", PMessage {| BotMessage.body := "hola"; BotMessage.from := "521555@c.us";
                               BotMessage.name := contact_name o (Some "521555@c.us");
                               BotMessage.phone := "999"; BotMessage.raw := hola_payload |})].
Proof.
  rewrite (eventInMsg_inbound_run o hola_payload hola_data "521555@c.us" 999) by reflexivity.
  eexists; split; [done|]. apply emit_after_name.
Qed.

(** The group scenario of the specification: a payload from the chat
    ["1234-abc@g.us"] emits nothing and leaves the world unchanged. *)
Theorem eventInMsg_group_scenario (o : oracle) w :
  exec o (eventInMsg group_payload) w = (inr (), w).
Proof. apply (eventInMsg_group o group_payload group_data "1234-abc@g.us"); reflexivity. Qed.

End WasapiEvents.
