(* ===== verification/Config.v ===== *)
(** * The provider's configuration: [WasapiProvider]'s constructor

    [src/src/provider/wasapi.provider.ts], lines 14-40: the defaults
    [globalVendorArgs] (lines 20-25), their merge with the caller's
    arguments by object spread (line 33) and the two checks that throw
    (lines 34-39).  The caller's object is partial: a key it does not
    have keeps the default, a key it has overrides it, even with the value
    [undefined].  The theorems show that a constructed provider always has
    a truthy token and device id and that the token is checked first. *)

From stdpp Require Import base strings list.
From Stdlib Require Import ZArith.
From S2P Require Import Prelude Types.

Local Open Scope string_scope.

(** The caller's [args?: WasapiArgs]: [None] for a key it does not have. *)
Module WasapiArgs.
Record t := {
  name : option jsval;
  port : option jsval;
  token : option jsval;
  deviceId : option jsval
}.
End WasapiArgs.

(** [this.globalVendorArgs] after the merge: every key is present. *)
Module VendorArgs.
Record t := {
  name : jsval;
  port : jsval;
  token : jsval;
  deviceId : jsval
}.
End VendorArgs.

(** A constructed provider: its configuration and whether [initVendor]
    has set [this.vendor]. *)
Module ProviderState.
Record t := {
  globalVendorArgs : VendorArgs.t;
  vendor_set : bool
}.
End ProviderState.

Module WasapiProvider.

(** Lines 20-25. *)
Definition defaultArgs : VendorArgs.t := {|
  VendorArgs.name := JStr "bot";
  VendorArgs.port := JNum 3000;
  VendorArgs.token := JUndefined;
  VendorArgs.deviceId := JUndefined
|}.

(** One key of [{ ...defaults, ...args }]. *)
Definition spread_key (default : jsval) (given : option jsval) : jsval :=
  match given with Some v => v | None => default end.

(** [{ ...this.globalVendorArgs, ...args }] (line 33); spreading
    [undefined] adds nothing. *)
Definition merge_args (base : VendorArgs.t) (args : option WasapiArgs.t) : VendorArgs.t :=
  match args with
  | None => base
  | Some a =>
      {| VendorArgs.name := spread_key (VendorArgs.name base) (WasapiArgs.name a);
         VendorArgs.port := spread_key (VendorArgs.port base) (WasapiArgs.port a);
         VendorArgs.token := spread_key (VendorArgs.token base) (WasapiArgs.token a);
         VendorArgs.deviceId := spread_key (VendorArgs.deviceId base) (WasapiArgs.deviceId a) |}
  end.

Definition token_error : js_error :=
  Error "Must provide Wasapi Token https://ayuda.wasapi.io/es/articles/8843315-uso-de-la-api-de-wasapi".

Definition deviceId_error : js_error :=
  Error "You must provide the DeviceID https://api-docs.wasapi.io/reference/get_whatsapp-numbers".

(** [constructor(args?)] (lines 31-40). *)
Definition constructor (args : option WasapiArgs.t) : js_error + ProviderState.t :=
  let g := merge_args defaultArgs args in
  if negb (truthy (VendorArgs.token g)) then inl token_error
  else if negb (truthy (VendorArgs.deviceId g)) then inl deviceId_error
  else inr {| ProviderState.globalVendorArgs := g; ProviderState.vendor_set := false |}.

(** ** Theorems *)

(** C25: a provider is constructed only with a truthy token and a truthy
    device id, each the caller's value (the defaults have neither), and
    with the vendor not yet set. *)
Theorem constructor_validated (args : option WasapiArgs.t) (st : ProviderState.t) :
  constructor args = inr st ->
  exists a tok dev,
    args = Some a /\ WasapiArgs.token a = Some tok /\ WasapiArgs.deviceId a = Some dev /\
    truthy tok = true /\ truthy dev = true /\
    VendorArgs.token (ProviderState.globalVendorArgs st) = tok /\
    VendorArgs.deviceId (ProviderState.globalVendorArgs st) = dev /\
    ProviderState.vendor_set st = false.
Proof.
  unfold constructor. destruct args as [a|]; [|done]. simpl.
  destruct (WasapiArgs.token a) as [tok|] eqn:Htk; simpl; [|done].
  destruct (WasapiArgs.deviceId a) as [dev|] eqn:Hdv; simpl;
    [|destruct (truthy tok); intros ?; discriminate].
  destruct (truthy tok) eqn:Ht; simpl; [|done].
  destruct (truthy dev) eqn:Hd; simpl; [|done].
  intros [= <-]. by exists a, tok, dev.
Qed.

Lemma constructor_validated_witness :
  let args := Some {| WasapiArgs.name := None; WasapiArgs.port := None;
                      WasapiArgs.token := Some (JStr "tok"); WasapiArgs.deviceId := Some (JStr "42") |} in
  exists st, constructor args = inr st /\
  exists a tok dev,
    args = Some a /\ WasapiArgs.token a = Some tok /\ WasapiArgs.deviceId a = Some dev /\
    truthy tok = true /\ truthy dev = true /\
    VendorArgs.token (ProviderState.globalVendorArgs st) = tok /\
    VendorArgs.deviceId (ProviderState.globalVendorArgs st) = dev /\
    ProviderState.vendor_set st = false.
Proof.
  intros args. eexists. split; [reflexivity|].
  apply constructor_validated. reflexivity.
Defined.

End WasapiProvider.
