(* ===== verification/Status.v ===== *)
(** * The device status check: [WasapiProvider.checkStatus]

    [src/src/provider/wasapi.provider.ts], lines 144-176.  The check reads
    the vendor's client ([this.vendor.getClient()], a [TypeError] before
    [initVendor] has set the vendor), fetches the registered numbers, looks
    for the device whose [id.toString()] is [===] to the configured id
    ([Array.prototype.find], whose callback throws on a device without id)
    and emits ['ready'] on the provider, or ['auth_failure'] with
    instructions; every error is caught, logged and turned into
    ['auth_failure'].  The theorems: exactly one of the two outcomes is
    emitted, whatever the environment answers; which one, for a found
    device, an absent device and a failed request; and a numeric device
    id never matches. *)

From stdpp Require Import base strings list gmap.
From Stdlib Require Import ZArith.
From S2P Require Import Prelude Types Runtime Config.

Local Open Scope string_scope.

Module WasapiProvider.

(** [this.vendor.getClient()] *)
Definition getClient (st : ProviderState.t) : M unit :=
  if ProviderState.vendor_set st then mret ()
  else Raise (TypeError "Cannot read properties of undefined (reading 'getClient')").

(** The callback of [find]: [device.id.toString() === deviceId]. *)
Definition device_matches (deviceId : jsval) (device : Device.t) : M bool :=
  match Device.id device with
  | Some i => mret (bool_decide (JStr (js_toString i) = deviceId))
  | None => Raise (TypeError "Cannot read properties of undefined (reading 'toString')")
  end.

Definition not_found_instructions (deviceId : jsval) : list string :=
  ["Device with ID " ++ js_String deviceId ++ " not found";
   "Please check your device ID at: https://api-docs.wasapi.io/reference/get_whatsapp-numbers"].

Definition error_instructions : list string :=
  ["Unable to check device status"; "Please verify your token and device ID"].

(** [checkStatus(deviceId)] (lines 144-176). *)
Definition checkStatus (st : ProviderState.t) (deviceId : jsval) : M unit :=
  catch
    (getClient st;;
     response ← call GetWhatsappNumbers;
     data ← (match WhatsappNumbers.data response with
             | Some ds => mret ds
             | None => Raise (TypeError "Cannot read properties of undefined (reading 'find')")
             end : M (list Device.t));
     device ← find_m (device_matches deviceId) data;
     (match device with
     | None =>
         call (Emit Provider "auth_failure" (PInstructions (not_found_instructions deviceId)))
     | Some dev =>
         call (ConsoleLog LogInfo ("Device " ++ js_String deviceId ++ " found: " ++
                 Device.display_name dev ++ " (" ++ Device.phone_number dev ++ ")") None);;
         call (Emit Provider "ready" PUndefined)
     end : M unit))
    (fun err =>
       call (ConsoleLog LogError "Error checking device status:" (Some err));;
       (call (Emit Provider "auth_failure" (PInstructions error_instructions)) : M unit)).

(** ** Specification *)

(** What [find] with the callback computes. *)
Fixpoint find_device (deviceId : jsval) (ds : list Device.t) : js_error + option Device.t :=
  match ds with
  | [] => inr None
  | dev :: ds' =>
      match Device.id dev with
      | Some i => if bool_decide (JStr (js_toString i) = deviceId) then inr (Some dev)
                  else find_device deviceId ds'
      | None => inl (TypeError "Cannot read properties of undefined (reading 'toString')")
      end
  end.

(** A device the configured id designates. *)
Definition designates (deviceId : jsval) (dev : Device.t) : Prop :=
  exists i, Device.id dev = Some i /\ deviceId = JStr (js_toString i).

Local Open Scope list_scope.

Section Proofs.
Context (o : oracle).

Lemma find_device_run deviceId ds w :
  exec o (find_m (device_matches deviceId) ds) w = (find_device deviceId ds, w).
Proof.
  induction ds as [|dev ds IH]; [done|]. simpl. unfold device_matches.
  destruct (Device.id dev); simpl; [|done].
  case_bool_decide; [done|apply IH].
Qed.

Lemma find_device_some deviceId ds dev :
  find_device deviceId ds = inr (Some dev) -> dev ∈ ds /\ designates deviceId dev.
Proof.
  induction ds as [|d ds IH]; simpl; [done|].
  destruct (Device.id d) as [i|] eqn:Hi; [|done].
  case_bool_decide as Hm.
  - intros [= <-]. split; [left|by exists i].
  - intros H. destruct (IH H). split; [by right|done].
Qed.

Lemma find_device_complete deviceId ds :
  Forall (fun dev => is_Some (Device.id dev)) ds ->
  (find_device deviceId ds = inr None <-> ~ exists dev, dev ∈ ds /\ designates deviceId dev).
Proof.
  induction 1 as [|d ds [i Hi] Hall IH]; simpl.
  - split; [intros _ [dev [Hin _]]; set_solver|done].
  - rewrite Hi. case_bool_decide as Hm.
    + split; [done|]. intros Hn. exfalso. apply Hn. exists d. split; [left|by exists i].
    + rewrite IH. split.
      * intros Hn [dev [Hin Hd]]. apply elem_of_cons in Hin as [->|Hin].
        -- destruct Hd as [j [Hj ->]]. rewrite Hi in Hj. injection Hj as ->. done.
        -- apply Hn. by exists dev.
      * intros Hn [dev [Hin Hd]]. apply Hn. exists dev. split; [by right|done].
Qed.

Lemma find_device_total deviceId ds :
  Forall (fun dev => is_Some (Device.id dev)) ds -> exists r, find_device deviceId ds = inr r.
Proof.
  induction 1 as [|d ds [i Hi] _ [r IH]]; simpl; [by eexists|].
  rewrite Hi. case_bool_decide; eauto.
Qed.

(** The run of [checkStatus], by the outcome of the request and of [find]. *)
Lemma checkStatus_run st deviceId w :
  exec o (checkStatus st deviceId) w =
  let fail e w1 :=
    (inr (), emit_provider "auth_failure" (PInstructions error_instructions)
               (log w1 (TLog LogError "Error checking device status:" (Some e)))) in
  if ProviderState.vendor_set st then
    let w1 := log w (TCall GetWhatsappNumbers) in
    match numbers_api o with
    | inl e => fail e w1
    | inr r =>
        match WhatsappNumbers.data r with
        | None => fail (TypeError "Cannot read properties of undefined (reading 'find')") w1
        | Some ds =>
            match find_device deviceId ds with
            | inl e => fail e w1
            | inr None =>
                (inr (), emit_provider "auth_failure"
                           (PInstructions (not_found_instructions deviceId)) w1)
            | inr (Some dev) =>
                (inr (), emit_provider "ready" PUndefined
                   (log w1 (TLog LogInfo ("Device " ++ js_String deviceId ++ " found: " ++
                      Device.display_name dev ++ " (" ++ Device.phone_number dev ++ ")") None)))
            end
        end
    end
  else fail (TypeError "Cannot read properties of undefined (reading 'getClient')") w.
Proof.
  unfold checkStatus, getClient. destruct (ProviderState.vendor_set st); run_simpl; [|done].
  destruct (numbers_api o) as [e|r]; simpl; [done|].
  destruct (WhatsappNumbers.data r) as [ds|]; run_simpl; [|done].
  rewrite find_device_run. by destruct (find_device deviceId ds) as [e|[dev|]].
Qed.

(** C5: [checkStatus] never throws and emits exactly one event on the
    provider, either ['ready'] or ['auth_failure'] with a non-empty list
    of instructions, and nothing on the vendor: the check is one-shot,
    whatever the environment answers. *)
Theorem checkStatus_one_outcome st deviceId w :
  exists w' t p, exec o (checkStatus st deviceId) w = (inr (), w') /\
    emits_by Provider (trace w') = emits_by Provider (trace w) ++ [(t, p)] /\
    emits_by Vendor (trace w') = emits_by Vendor (trace w) /\
    ((t = "ready" /\ p = PUndefined) \/
     (t = "auth_failure" /\ exists l, p = PInstructions l /\ l <> [])).
Proof.
  rewrite checkStatus_run.
  destruct (ProviderState.vendor_set st);
    [destruct (numbers_api o) as [e|r];
     [|destruct (WhatsappNumbers.data r) as [ds|];
       [destruct (find_device deviceId ds) as [e|[dev|]]|]]|];
    do 3 eexists; (split; [done|]);
    rewrite !emits_by_emit_provider, ?emits_by_log by done; simpl;
    rewrite ?app_nil_r; (split_and!; [done|done|]);
    first [by left | right; split; [done|]; eexists; split; [done|discriminate]].
Qed.

(** C18: when the registered numbers all have ids and one of them is the
    configured device, [checkStatus] emits ['ready'] (and only that). *)
Theorem checkStatus_found st deviceId r ds dev w :
  ProviderState.vendor_set st = true -> numbers_api o = inr r ->
  WhatsappNumbers.data r = Some ds ->
  Forall (fun d => is_Some (Device.id d)) ds -> dev ∈ ds -> designates deviceId dev ->
  exists w', exec o (checkStatus st deviceId) w = (inr (), w') /\
    emits_by Provider (trace w') = emits_by Provider (trace w) ++ [("ready", PUndefined)].
Proof.
  intros Hv Hn Hd Hall Hin Hdes. rewrite checkStatus_run, Hv, Hn. simpl. rewrite Hd.
  destruct (find_device_total deviceId ds Hall) as [[dev'|] Hf]; rewrite Hf.
  - eexists; split; [done|]. rewrite emits_by_emit_provider, !emits_by_log by done.
    by rewrite decide_True.
  - exfalso. apply (proj1 (find_device_complete deviceId ds Hall) Hf). by exists dev.
Qed.

(** C19: when the registered numbers all have ids and none is the
    configured device, [checkStatus] emits ['auth_failure'] with the
    instructions naming the device id, and no ['ready']. *)
Theorem checkStatus_not_found st deviceId r ds w :
  ProviderState.vendor_set st = true -> numbers_api o = inr r ->
  WhatsappNumbers.data r = Some ds ->
  Forall (fun d => is_Some (Device.id d)) ds ->
  ~ (exists dev, dev ∈ ds /\ designates deviceId dev) ->
  exists w', exec o (checkStatus st deviceId) w = (inr (), w') /\
    emits_by Provider (trace w') = emits_by Provider (trace w) ++
      [("auth_failure", PInstructions (not_found_instructions deviceId))].
Proof.
  intros Hv Hn Hd Hall Hno. rewrite checkStatus_run, Hv, Hn. simpl. rewrite Hd.
  rewrite (proj2 (find_device_complete deviceId ds Hall) Hno).
  eexists; split; [done|]. rewrite emits_by_emit_provider, !emits_by_log by done.
  by rewrite decide_True.
Qed.

(** C27: when the request for the numbers fails, [checkStatus] logs the
    error and emits ['auth_failure'] with the generic instructions. *)
Theorem checkStatus_transport_error st deviceId e w :
  ProviderState.vendor_set st = true -> numbers_api o = inl e ->
  exists w', exec o (checkStatus st deviceId) w = (inr (), w') /\
    emits_by Provider (trace w') = emits_by Provider (trace w) ++
      [("auth_failure", PInstructions error_instructions)] /\
    TLog LogError "Error checking device status:" (Some e) ∈ trace w'.
Proof.
  intros Hv Hn. rewrite checkStatus_run, Hv, Hn. simpl.
  eexists; split; [done|]. rewrite emits_by_emit_provider, !emits_by_log by done.
  rewrite decide_True by done. split; [done|].
  rewrite trace_emit_provider, !trace_log. set_solver.
Qed.

(** C28: a device id configured as a number never matches ([===] between
    the string [id.toString()] and a number is false): [checkStatus] never
    emits ['ready'] for it, whatever the environment answers. *)
Theorem checkStatus_numeric_deviceId st (z : Z) w :
  exists w' l, exec o (checkStatus st (JNum z)) w = (inr (), w') /\
    emits_by Provider (trace w') = emits_by Provider (trace w) ++
      [("auth_failure", PInstructions l)].
Proof.
  rewrite checkStatus_run.
  destruct (ProviderState.vendor_set st);
    [destruct (numbers_api o) as [e|r];
     [|destruct (WhatsappNumbers.data r) as [ds|];
       [destruct (find_device (JNum z) ds) as [e|[dev|]] eqn:Hf|]]|];
    try (do 2 eexists; split; [done|];
         rewrite emits_by_emit_provider, ?emits_by_log by done; by rewrite decide_True).
  exfalso. destruct (find_device_some _ _ _ Hf) as [_ [i [_ Hi]]]. discriminate.
Qed.

End Proofs.

(** ** Witnesses *)

Definition demo_args : VendorArgs.t := {|
  VendorArgs.name := JStr "bot"; VendorArgs.port := JNum 3000;
  VendorArgs.token := JStr "tok"; VendorArgs.deviceId := JStr "42" |}.

Definition ready_state : ProviderState.t :=
  {| ProviderState.globalVendorArgs := demo_args; ProviderState.vendor_set := true |}.

Definition demo_devices : list Device.t :=
  [{| Device.id := Some 42%Z; Device.display_name := "bot";
      Device.phone_number := "5215550000" |}].

Lemma checkStatus_found_witness :
  exists w', exec demo_oracle (checkStatus ready_state (JStr "42")) w0 = (inr (), w') /\
    emits_by Provider (trace w') = emits_by Provider (trace w0) ++ [("ready", PUndefined)].
Proof.
  apply (checkStatus_found demo_oracle ready_state (JStr "42")
           {| WhatsappNumbers.data := Some demo_devices |} demo_devices
           {| Device.id := Some 42%Z; Device.display_name := "bot";
              Device.phone_number := "5215550000" |});
    [reflexivity..| |left|].
  - repeat constructor. by eexists.
  - exists 42%Z. split; reflexivity.
Defined.

Lemma checkStatus_not_found_witness :
  exists w', exec demo_oracle (checkStatus ready_state (JStr "7")) w0 = (inr (), w') /\
    emits_by Provider (trace w') = emits_by Provider (trace w0) ++
      [("auth_failure", PInstructions (not_found_instructions (JStr "7")))].
Proof.
  apply (checkStatus_not_found demo_oracle ready_state (JStr "7")
           {| WhatsappNumbers.data := Some demo_devices |} demo_devices); [reflexivity..| |].
  - repeat constructor. by eexists.
  - intros [dev [Hin [i [Hi Hs]]]]. apply list_elem_of_singleton in Hin. subst dev.
    injection Hi as <-. discriminate.
Defined.

Lemma checkStatus_transport_error_witness :
  let o := {| contact_api := contact_api demo_oracle;
              numbers_api := inl (ApiError 401 "Unauthorized");
              send_api := send_api demo_oracle; attach_api := attach_api demo_oracle;
              http_get := http_get demo_oracle; fs_write := fs_write demo_oracle;
              tmp_dir := tmp_dir demo_oracle; ref_of := ref_of demo_oracle |} in
  exists w', exec o (checkStatus ready_state (JStr "42")) w0 = (inr (), w') /\
    emits_by Provider (trace w') = emits_by Provider (trace w0) ++
      [("auth_failure", PInstructions error_instructions)] /\
    TLog LogError "Error checking device status:" (Some (ApiError 401 "Unauthorized")) ∈ trace w'.
Proof. intros o. apply (checkStatus_transport_error o ready_state); reflexivity. Defined.

End WasapiProvider.
