(* ===== verification/Dispatch.v ===== *)
(** * The outbound dispatcher: [sendMessage] and [sendAttachment]

    [src/src/provider/wasapi.provider.ts], lines 185-216.  Both build the
    SDK request from the caller's arguments and the configured device id
    and call the vendor's client.  [sendMessage] logs a failure and
    rethrows the same error; [sendAttachment] logs it and returns
    [undefined].  The theorems give the envelope of each request and the
    two failure policies. *)

From stdpp Require Import base strings list gmap.
From Stdlib Require Import ZArith.
From S2P Require Import Prelude Types Runtime Config Status.

Local Open Scope string_scope.

Module WasapiProvider.
Import Status.WasapiProvider.

(** The [SendMessage] payload (lines 187-191). *)
Definition message_payload (st : ProviderState.t) (userId message : string) : SendMessage.t :=
  {| SendMessage.message := message; SendMessage.wa_id := userId;
     SendMessage.from_id := VendorArgs.deviceId (ProviderState.globalVendorArgs st) |}.

(** [sendMessage(userId, message)] (lines 185-200). *)
Definition sendMessage (st : ProviderState.t) (userId message : string) : M ResponseMessageWPP :=
  catch
    (getClient st;;
     call (SendMessageReq (message_payload st userId message)))
    (fun err =>
       call (ConsoleLog LogError "Error sending message:" (Some err));;
       Raise err).

(** The [SendAttachmentParams] payload (lines 203-209). *)
Definition attachment_payload (st : ProviderState.t) (userId filePath : string)
    (caption filename : option string) : SendAttachmentParams.t :=
  {| SendAttachmentParams.from_id := VendorArgs.deviceId (ProviderState.globalVendorArgs st);
     SendAttachmentParams.wa_id := userId; SendAttachmentParams.filePath := filePath;
     SendAttachmentParams.caption := caption; SendAttachmentParams.filename := filename |}.

(** [sendAttachment(userId, filePath, caption?, filename?)] (lines 202-216);
    [None] is the [undefined] the [catch] falls through to. *)
Definition sendAttachment (st : ProviderState.t) (userId filePath : string)
    (caption filename : option string) : M (option ResponseAttachmentWPP) :=
  catch
    (getClient st;;
     response ← call (SendAttachmentReq (attachment_payload st userId filePath caption filename));
     mret (Some response))
    (fun err =>
       call (ConsoleLog LogError "Error Sending message with multimedia" (Some err));;
       mret None).

Local Open Scope list_scope.

Section Proofs.
Context (o : oracle).

(** C20: [sendMessage] sends exactly one request, whose envelope tags the
    recipient with [wa_id], the configured device with [from_id] and the
    text with [message]; the provider's answer is returned as is, and a
    failure of the request is logged and rethrown unchanged. *)
Theorem sendMessage_spec st userId message w :
  ProviderState.vendor_set st = true ->
  let req := SendMessageReq {| SendMessage.message := message; SendMessage.wa_id := userId;
               SendMessage.from_id := VendorArgs.deviceId (ProviderState.globalVendorArgs st) |} in
  exec o (sendMessage st userId message) w =
  match send_api o (message_payload st userId message) with
  | inr r => (inr r, log w (TCall req))
  | inl e => (inl e, log (log w (TCall req)) (TLog LogError "Error sending message:" (Some e)))
  end.
Proof.
  intros Hv. unfold sendMessage, getClient. rewrite Hv. run_simpl.
  by destruct (send_api o (message_payload st userId message)).
Qed.

(** C21: [sendMessage] propagates every failure: before [initVendor] the
    missing vendor's [TypeError], after it the provider's error itself. *)
Theorem sendMessage_error_propagates st userId message e w :
  (ProviderState.vendor_set st = false /\
     e = TypeError "Cannot read properties of undefined (reading 'getClient')") \/
  (ProviderState.vendor_set st = true /\ send_api o (message_payload st userId message) = inl e) ->
  exists w', exec o (sendMessage st userId message) w = (inl e, w') /\
    TLog LogError "Error sending message:" (Some e) ∈ trace w'.
Proof.
  unfold sendMessage, getClient.
  intros [[Hv ->]|[Hv He]]; rewrite Hv; run_simpl; [|rewrite He];
    (eexists; split; [done|]); set_solver.
Qed.

(** C22: [sendAttachment] never throws: it returns the provider's answer,
    or [undefined] after logging when the vendor is missing or the request
    fails. *)
Theorem sendAttachment_swallows st userId filePath caption filename w :
  fst (exec o (sendAttachment st userId filePath caption filename) w) =
  inr (if ProviderState.vendor_set st then
         match attach_api o (attachment_payload st userId filePath caption filename) with
         | inr r => Some r
         | inl _ => None
         end
       else None).
Proof.
  unfold sendAttachment, getClient. destruct (ProviderState.vendor_set st); run_simpl; [|done].
  by destruct (attach_api o (attachment_payload st userId filePath caption filename)).
Qed.

End Proofs.

Lemma sendMessage_spec_witness :
  exec demo_oracle (sendMessage ready_state "521555@c.us" "hi") w0 =
  (inr (ResponseMessage 1),
   log w0 (TCall (SendMessageReq {| SendMessage.message := "hi";
                                    SendMessage.wa_id := "521555@c.us";
                                    SendMessage.from_id := JStr "42" |}))).
Proof. apply (sendMessage_spec demo_oracle ready_state). reflexivity. Defined.

Lemma sendMessage_error_propagates_witness :
  let e := ApiError 500 "Internal Server Error" in
  let o := {| contact_api := contact_api demo_oracle; numbers_api := numbers_api demo_oracle;
              send_api := fun _ => inl e; attach_api := attach_api demo_oracle;
              http_get := http_get demo_oracle; fs_write := fs_write demo_oracle;
              tmp_dir := tmp_dir demo_oracle; ref_of := ref_of demo_oracle |} in
  exists w', exec o (sendMessage ready_state "521555@c.us" "hi") w0 = (inl e, w') /\
    TLog LogError "Error sending message:" (Some e) ∈ trace w'.
Proof. intros e o. apply sendMessage_error_propagates. right. split; reflexivity. Defined.

End WasapiProvider.
