(* ===== verification/Attachment.v ===== *)
(** * The attachment resolver: [downloadFile] and [saveFile]

    [src/src/provider/wasapi.provider.ts], lines 97-104
    ([fileTypeFromFile]), 119-137 ([downloadFile]) and 227-239
    ([saveFile]), with the library functions they call: [mime.extension]
    of [mime-types] (the type is the text before the first [;] or blank,
    lower-cased, looked up in the database, whose first extension is
    returned; the database is a parameter [mime_db]) and [path.join]
    (for a directory and a plain file name).  The theorems: a download
    whose content type has no extension yields [undefined] and no error;
    [saveFile] never throws and writes a file only when the download gave
    an extension; two saves within one millisecond write the same path. *)

From stdpp Require Import base strings list gmap.
From Stdlib Require Import ZArith Ascii.
From S2P Require Import Prelude Types Runtime Config Status.

Local Open Scope string_scope.

(** The media reference of a message context: [ctx.data.media], [None]
    when [ctx], [data] or [media] is missing; [links] may be missing. *)
Module Media.
(** [ctx.data.media]: its [links] object, when present, and the
    [download] field of it, when present. *)
Record t := { links : option (option string) }.
End Media.

Module WasapiProvider.

Definition URL_S3 : string := "https://wasapi-assets.s3.us-east-2.amazonaws.com/media".

(** ** [mime.extension] *)

(** [\s] of a JavaScript regular expression, on ASCII. *)
Definition is_space (c : ascii) : bool :=
  bool_decide (c ∈ [" "%char; "009"%char; "010"%char; "011"%char; "012"%char; "013"%char]).

Definition ascii_lower (c : ascii) : ascii :=
  let n := nat_of_ascii c in
  if (65 <=? n)%nat && (n <=? 90)%nat then ascii_of_nat (n + 32) else c.

Fixpoint lower (s : string) : string :=
  match s with EmptyString => EmptyString | String c s' => String (ascii_lower c) (lower s') end.

Fixpoint ltrim (s : string) : string :=
  match s with
  | String c s' => if is_space c then ltrim s' else s
  | EmptyString => EmptyString
  end.

(** [[^;\s]*]: the longest prefix without [;] or blank. *)
Fixpoint type_token (s : string) : string :=
  match s with
  | String c s' => if is_space c || bool_decide (c = ";"%char) then EmptyString
                   else String c (type_token s')
  | EmptyString => EmptyString
  end.

Section Mime.
Context (mime_db : gmap string (list string)).

(** [mime.extension(type)]: [None] is [false]. *)
Definition mime_extension (type : string) : option string :=
  if bool_decide (type = "") then None else
  match mime_db !! lower (type_token (ltrim type)) with
  | Some (e :: _) => Some e
  | _ => None
  end.

(** [fileTypeFromFile(response)] (lines 97-104): the content type, [''] when
    the header is missing, and its extension. *)
Definition fileTypeFromFile (response : AxiosResponse.t) : string * option string :=
  let type := default "" (AxiosResponse.content_type response) in
  (type, mime_extension type).

Definition js_message (e : js_error) : string :=
  match e with TypeError m | Error m | ApiError _ m => m end.

(** [downloadFile(idResource)] (lines 119-137); [None] is [undefined]. *)
Definition downloadFile (st : ProviderState.t) (idResource : string)
    : M (option (list Byte.byte * string)) :=
  catch
    (let urlMedia := URL_S3 ++ "/" ++ idResource in
     response ← call (AxiosGet urlMedia (js_String (VendorArgs.token (ProviderState.globalVendorArgs st))));
     let ext := snd (fileTypeFromFile response) in
     match ext with
     | Some e => if bool_decide (e = "") then Raise (Error "Unable to determine file extension")
                 else mret (Some (AxiosResponse.data response, e))
     | None => Raise (Error "Unable to determine file extension")
     end)
    (fun error => call (ConsoleLog LogError (js_message error) None);; mret None).

(** [path.join(dir, name)] for a file name without separators. *)
Definition path_join (dir name : string) : string :=
  if bool_decide (dir = "") then name
  else if bool_decide (String.get (String.length dir - 1) dir = Some "/"%char)
  then dir ++ name else dir ++ "/" ++ name.

(** [ctx.data.media.links.download] (line 230), as it reaches the URL
    template of [downloadFile]: a missing [download] is [undefined], which
    the template prints as ['undefined']; [None] when [links] is missing
    and reading [download] throws. *)
Definition download_id (m : Media.t) : option string :=
  option_map (default "undefined") (Media.links m).

(** [saveFile(ctx, options?)] (lines 227-239); [path] is [options?.path]. *)
Definition saveFile (st : ProviderState.t) (media : option Media.t) (path : option string)
    : M string :=
  match media with
  | None => mret ""
  | Some m =>
      catch
        (download ← (match download_id m with
                     | Some d => mret d
                     | None => Raise (TypeError "Cannot read properties of undefined (reading 'download')")
                     end : M string);
         r ← downloadFile st download;
         '(buffer, extension) ← (match r with
                                 | Some be => mret be
                                 | None => Raise (TypeError "Cannot destructure property 'buffer' of undefined")
                                 end : M (list Byte.byte * string));
         now ← call DateNow;
         let fileName := "file-" ++ js_toString now ++ "." ++ extension in
         dir ← (match path with Some p => mret p | None => call Tmpdir end : M string);
         let pathFile := path_join dir fileName in
         call (WriteFile pathFile buffer);;
         mret pathFile)
        (fun err => call (ConsoleLog LogInfo ("[Error]: " ++ js_message err) None);; mret "ERROR")
  end.

(** ** Specification *)

Definition download_url (idResource : string) : string := URL_S3 ++ "/" ++ idResource.

Definition token_header (st : ProviderState.t) : string :=
  js_String (VendorArgs.token (ProviderState.globalVendorArgs st)).

(** What the download yields: the bytes and a non-empty extension, or the
    error [downloadFile] catches. *)
Definition download_outcome (o : oracle) (st : ProviderState.t) (idResource : string)
    : js_error + (list Byte.byte * string) :=
  match http_get o (download_url idResource) (token_header st) with
  | inl e => inl e
  | inr resp =>
      match mime_extension (default "" (AxiosResponse.content_type resp)) with
      | Some e => if bool_decide (e = "") then inl (Error "Unable to determine file extension")
                  else inr (AxiosResponse.data resp, e)
      | None => inl (Error "Unable to determine file extension")
      end
  end.

Local Open Scope list_scope.

Section Proofs.
Context (o : oracle).

Lemma downloadFile_run st idResource w :
  exec o (downloadFile st idResource) w =
  let w1 := log w (TCall (AxiosGet (download_url idResource) (token_header st))) in
  match download_outcome o st idResource with
  | inr be => (inr (Some be), w1)
  | inl e => (inr None, log w1 (TLog LogError (js_message e) None))
  end.
Proof.
  unfold downloadFile, download_outcome, fileTypeFromFile. run_simpl.
  unfold download_url, token_header.
  destruct (http_get o _ _) as [e|resp]; simpl; [done|].
  destruct (mime_extension _) as [x|]; simpl; [|done].
  by case_bool_decide.
Qed.

(** The name [saveFile] gives a file downloaded at time [now]. *)
Definition file_name (now : Z) (extension : string) : string :=
  "file-" ++ js_toString now ++ "." ++ extension.

Lemma saveFile_run st m path w :
  exec o (saveFile st (Some m) path) w =
  match download_id m with
  | None =>
      (inr "ERROR", log w (TLog LogInfo
         "[Error]: Cannot read properties of undefined (reading 'download')" None))
  | Some d =>
      let w1 := log w (TCall (AxiosGet (download_url d) (token_header st))) in
      match download_outcome o st d with
      | inl e =>
          (inr "ERROR", log (log w1 (TLog LogError (js_message e) None))
             (TLog LogInfo "[Error]: Cannot destructure property 'buffer' of undefined" None))
      | inr (b, ext) =>
          let pf := path_join (default (tmp_dir o) path) (file_name (clock w) ext) in
          let w2 := log w1 (TCall (WriteFile pf b)) in
          match fs_write o pf b with
          | inl e => (inr "ERROR", log w2 (TLog LogInfo ("[Error]: " ++ js_message e) None))
          | inr _ => (inr pf, mk_world (vendor_on w2) (provider_on w2) (trace w2)
                                       (<[pf := b]> (files w2)) (clock w2))
          end
      end
  end.
Proof.
  unfold saveFile. destruct (download_id m) as [d|];
    with_strategy opaque [downloadFile] run_simpl; [|done].
  rewrite downloadFile_run. simpl.
  destruct (download_outcome o st d) as [e|[b ext]]; run_simpl; [done|].
  unfold file_name. destruct path; run_simpl;
    by destruct (fs_write o _ b).
Qed.

(** C31: when the download gives bytes and an extension and the write
    succeeds, [saveFile] writes the bytes at [join(dir, 'file-<now>.<ext>')],
    where [dir] is [options.path] or else the system's temporary
    directory, returns that path, changes no other file, and issues
    exactly the GET and the write. *)
Theorem saveFile_writes_download st m path d b ext w :
  download_id m = Some d -> download_outcome o st d = inr (b, ext) ->
  let pf := path_join (default (tmp_dir o) path) (file_name (clock w) ext) in
  fs_write o pf b = inr () ->
  exists w', exec o (saveFile st (Some m) path) w = (inr pf, w') /\
    files w' = <[pf := b]> (files w) /\ clock w' = clock w /\
    calls (trace w') = calls (trace w) ++ [AxiosGet (download_url d) (token_header st); WriteFile pf b].
Proof.
  intros Hl Hd pf Hw. rewrite saveFile_run, Hl, Hd. simpl. fold pf. rewrite Hw.
  eexists; split; [done|]. split_and!; [done|done|].
  cbn [trace]. by rewrite !calls_app, <-app_assoc.
Qed.

(** C29: a download whose content type has no known extension yields
    [undefined] after logging ["Unable to determine file extension"]; it
    does not throw. *)
Theorem downloadFile_unknown_type st idResource resp w :
  http_get o (download_url idResource) (token_header st) = inr resp ->
  mime_extension (default "" (AxiosResponse.content_type resp)) = None ->
  exec o (downloadFile st idResource) w =
  (inr None, log (log w (TCall (AxiosGet (download_url idResource) (token_header st))))
                 (TLog LogError "Unable to determine file extension" None)).
Proof.
  intros Hg He. rewrite downloadFile_run. unfold download_outcome. by rewrite Hg, He.
Qed.

(** C30: [downloadFile] never throws, and a result it returns is the bytes
    of the fetched resource with the non-empty extension [mime.extension]
    gives its content type. *)
Theorem downloadFile_result_valid st idResource w :
  exists r w', exec o (downloadFile st idResource) w = (inr r, w') /\
    forall b e, r = Some (b, e) ->
      exists resp, http_get o (download_url idResource) (token_header st) = inr resp /\
        b = AxiosResponse.data resp /\
        mime_extension (default "" (AxiosResponse.content_type resp)) = Some e /\ e <> "".
Proof.
  rewrite downloadFile_run. unfold download_outcome.
  destruct (http_get o _ _) as [err|resp]; [by do 2 eexists; split; [done|]|].
  destruct (mime_extension _) as [x|] eqn:Hx; [|by do 2 eexists; split; [done|]].
  case_bool_decide as Hx0; [by do 2 eexists; split; [done|]|].
  do 2 eexists; split; [done|]. intros b e [= <- <-]. by exists resp.
Qed.

(** C32: when the download gives no usable result, [saveFile] returns
    ['ERROR'] without throwing, and it writes no file: the only request
    is the download's GET. *)
Theorem saveFile_download_failure st m path d e w :
  download_id m = Some d -> download_outcome o st d = inl e ->
  exists w', exec o (saveFile st (Some m) path) w = (inr "ERROR", w') /\
    files w' = files w /\
    calls (trace w') = calls (trace w) ++ [AxiosGet (download_url d) (token_header st)].
Proof.
  intros Hl Hd. rewrite saveFile_run, Hl, Hd. simpl.
  eexists; split; [done|]. split; [done|]. cbn [trace log]. by rewrite !calls_app, !app_nil_r.
Qed.

(** C33: two attachments saved in the same millisecond with the same
    extension get the same path [file-<now>.<ext>]: the second write
    replaces the first file, and both calls return that path. *)
Theorem saveFile_same_millisecond st m1 m2 path d1 d2 b1 b2 ext w :
  download_id m1 = Some d1 -> download_outcome o st d1 = inr (b1, ext) ->
  download_id m2 = Some d2 -> download_outcome o st d2 = inr (b2, ext) ->
  (forall p b, fs_write o p b = inr ()) ->
  exists pf w1 w2,
    exec o (saveFile st (Some m1) path) w = (inr pf, w1) /\
    exec o (saveFile st (Some m2) path) w1 = (inr pf, w2) /\
    files w2 !! pf = Some b2.
Proof.
  intros Hl1 Hd1 Hl2 Hd2 Hw. do 3 eexists. split.
  { rewrite saveFile_run, Hl1, Hd1. simpl. rewrite Hw. reflexivity. }
  split; [rewrite saveFile_run, Hl2, Hd2; simpl; rewrite Hw; reflexivity|].
  simpl. apply lookup_insert_eq.
Qed.

(** C34: a media whose [links] object has no [download] is not rejected:
    the URL template prints [undefined], so [saveFile] first fetches
    ['<URL_S3>/undefined'], and never throws. *)
Theorem saveFile_undefined_download st path w :
  exists r w' rest,
    exec o (saveFile st (Some {| Media.links := Some None |}) path) w = (inr r, w') /\
    calls (trace w') =
      calls (trace w) ++ AxiosGet (download_url "undefined") (token_header st) :: rest.
Proof.
  rewrite saveFile_run. cbn [download_id Media.links option_map default].
  destruct (download_outcome o st "undefined") as [e|[b ext]];
    [|destruct (fs_write o _ b)]; do 3 eexists; (split; [done|]); cbn [trace log];
    rewrite ?calls_app; simpl; by rewrite <-?app_assoc.
Qed.

End Proofs.

End Mime.

(** ** Witnesses *)

Local Open Scope list_scope.

Definition demo_db : gmap string (list string) := <["image/jpeg" := ["jpeg"; "jpg"]]> ∅.

(** The store serves a content type the database does not know. *)
Definition unknown_type_oracle : oracle := {|
  contact_api := contact_api demo_oracle; numbers_api := numbers_api demo_oracle;
  send_api := send_api demo_oracle; attach_api := attach_api demo_oracle;
  http_get := fun _ _ => inr {| AxiosResponse.content_type := Some "application/x-unknown";
                                AxiosResponse.data := [Byte.x02] |};
  fs_write := fs_write demo_oracle; tmp_dir := tmp_dir demo_oracle; ref_of := ref_of demo_oracle |}.

Lemma downloadFile_unknown_type_witness :
  exec unknown_type_oracle (downloadFile demo_db Status.WasapiProvider.ready_state "abc") w0 =
  (inr None, log (log w0 (TCall (AxiosGet (download_url "abc")
                                   (token_header Status.WasapiProvider.ready_state))))
                 (TLog LogError "Unable to determine file extension" None)).
Proof.
  apply (downloadFile_unknown_type demo_db unknown_type_oracle _ _
           {| AxiosResponse.content_type := Some "application/x-unknown";
              AxiosResponse.data := [Byte.x02] |}); reflexivity.
Defined.

Lemma saveFile_download_failure_witness :
  exists w', exec unknown_type_oracle
      (saveFile demo_db Status.WasapiProvider.ready_state
         (Some {| Media.links := Some (Some "abc") |}) None) w0 = (inr "ERROR", w') /\
    files w' = files w0 /\
    calls (trace w') = calls (trace w0) ++
      [AxiosGet (download_url "abc") (token_header Status.WasapiProvider.ready_state)].
Proof.
  apply (saveFile_download_failure demo_db unknown_type_oracle _ _ _ "abc"
           (Error "Unable to determine file extension")); reflexivity.
Defined.

Lemma saveFile_same_millisecond_witness :
  exists pf w1 w2,
    exec demo_oracle (saveFile demo_db Status.WasapiProvider.ready_state
                        (Some {| Media.links := Some (Some "a") |}) None) w0 = (inr pf, w1) /\
    exec demo_oracle (saveFile demo_db Status.WasapiProvider.ready_state
                        (Some {| Media.links := Some (Some "b") |}) None) w1 = (inr pf, w2) /\
    files w2 !! pf = Some [Byte.x01].
Proof.
  apply (saveFile_same_millisecond demo_db demo_oracle _ _ _ _ "a" "b" [Byte.x01] [Byte.x01] "jpeg");
    reflexivity.
Defined.

Lemma saveFile_writes_download_witness :
  exists w', exec demo_oracle (saveFile demo_db Status.WasapiProvider.ready_state
                                 (Some {| Media.links := Some (Some "a") |}) None) w0 =
    (inr "/tmp/file-0.jpeg", w') /\
    files w' = <["/tmp/file-0.jpeg" := [Byte.x01]]> (files w0) /\ clock w' = clock w0 /\
    calls (trace w') = calls (trace w0) ++
      [AxiosGet (download_url "a") (token_header Status.WasapiProvider.ready_state);
       WriteFile "/tmp/file-0.jpeg" [Byte.x01]].
Proof.
  exact (saveFile_writes_download demo_db demo_oracle Status.WasapiProvider.ready_state
           {| Media.links := Some (Some "a") |} None "a" [Byte.x01] "jpeg" w0 eq_refl eq_refl eq_refl).
Defined.

End WasapiProvider.
