(* ===== verification/Provider.v ===== *)
(** * The provider's wiring: the bridge, the initialisation, the webhook

    [src/src/provider/wasapi.provider.ts]: [busEvents] (lines 72-95), the
    table of vendor events the provider re-emits, which BuilderBot's
    [ProviderClass] registers on the vendor ([listenOnEvents]);
    [initVendor] (lines 46-53), which sets the vendor, registers the
    webhook route and awaits [checkStatus]; the webhook route [ctrlInMsg]
    (lines 109-112); and the Express handler of
    [src/examples/events/wasapiWebhook.ts/wasapiWebhook.ts] (lines 9-19).
    Both webhook handlers call the asynchronous [eventInMsg] without
    awaiting it: the call runs up to the contact lookup ([start]), the
    response is sent, and the rest runs when the lookup answers
    ([resume]).  The theorems: the response is always a success and is
    sent before the message is emitted, a malformed payload ends in a
    rejected promise nobody handles (many deliveries are in
    [Deliveries.v]), the bridge delivers the vendor's
    message to the provider's subscribers, and the initialisation emits
    one outcome of the status check. *)

From stdpp Require Import base strings list gmap.
From Stdlib Require Import ZArith.
From S2P Require Import Prelude Types Runtime Async Events Config Status.

Local Open Scope string_scope.

Module WasapiProvider.
Import Events.WasapiEvents Status.WasapiProvider.

(** [busEvents()] (lines 72-95). *)
Definition busEvents : list (string * bus_func) :=
  [("auth_failure", Forward "auth_failure");
   ("ready", EmitConst "ready" (PBool true));
   ("message", Forward "message");
   ("host", Forward "host")].

(** [ProviderClass.listenOnEvents(vendor)]: [vendor.on(event, func)] for
    each entry, in order. *)
Fixpoint listenOnEvents (evs : list (string * bus_func)) : M unit :=
  match evs with
  | [] => mret ()
  | (e, f) :: evs' => call (OnVendor e (Bridge f));; listenOnEvents evs'
  end.

(** [initVendor()] (lines 46-53): [new WasapiEvents(token)] is a fresh
    emitter, with no listener (lines 47-48); from then on the vendor is
    set and the route [POST /webhook/wasapi] is served (lines 49-50,
    [vendor_started]); then [await this.checkStatus(deviceId)] and the
    provider's new state is returned (lines 51-52, [initVendor_check]). *)
Definition vendor_started (st : ProviderState.t) : ProviderState.t :=
  {| ProviderState.globalVendorArgs := ProviderState.globalVendorArgs st;
     ProviderState.vendor_set := true |}.

Definition initVendor_check (st : ProviderState.t) : M ProviderState.t :=
  checkStatus (vendor_started st) (VendorArgs.deviceId (ProviderState.globalVendorArgs st));;
  mret (vendor_started st).

Definition initVendor (st : ProviderState.t) : M ProviderState.t :=
  call NewVendor;;
  initVendor_check st.

(** [beforeHttpServerInit()] and [afterHttpServerInit()] (lines 59-60 and
    66-67): the hooks BuilderBot calls around the start of the HTTP
    server have empty bodies; they make no request and return. *)
Definition beforeHttpServerInit : M unit := mret ().

Definition afterHttpServerInit : M unit := mret ().

(** [ctrlInMsg(req, res)] (lines 109-112): [this.vendor.eventInMsg(req.body)]
    is not awaited; [res.end('ok')] answers at once.  The pending call is
    returned to the event loop. *)
Definition ctrlInMsg (o : oracle) (body : WasapiMessage.t) (w : world) : task unit * world :=
  let '(t, w1) := start o (eventInMsg body) w in
  (t, snd (handle o (HttpRespond 200 "ok") w1)).

(** [String(err)] for an error. *)
Definition error_string (e : js_error) : string :=
  match e with
  | TypeError m => "TypeError: " ++ m
  | Error m | ApiError _ m => "Error: " ++ m
  end.

(** The Express handler of the example (wasapiWebhook.ts, lines 9-19):
    inside [try], the unawaited call of [eventInMsg] (line 13) and the
    200 answer (line 14); the [catch] logs and answers 500 (lines 15-18).
    It returns the call's pending promise, or a settled one when the
    [catch] ran. *)
Definition example_webhook (o : oracle) (body : WasapiMessage.t) (w : world)
    : task unit * world :=
  let '(r, w1) := async_call o (eventInMsg body) w in
  match r with
  | inr t => (t, snd (handle o (HttpRespond 200 "{success:true}") w1))
  | inl err =>
      (Done (inr ()),
       snd (exec o (call (ConsoleLog LogError "Error procesando webhook Wasapi:" (Some err));;
                    call (HttpRespond 500 ("{success:false, error:" ++ error_string err ++ "}")))
                 w1))
  end.

(** A whole delivery: the route, then the event loop resuming the call. *)
Definition deliver (o : oracle) (body : WasapiMessage.t) (w : world) : (js_error + unit) * world :=
  let '(t, w1) := ctrlInMsg o body w in resume o t w1.

Local Open Scope list_scope.

Section Proofs.
Context (o : oracle).

Lemma getName_start (p : WasapiMessage.t) d id w :
  WasapiMessage.data p = Some d -> WasapiData.wa_id d = id ->
  exists k : js_error + option ContactResponse.t -> M string,
    start o (getName p) w = (Pending (GetContactById id) k, log w (TCall (GetContactById id))) /\
    forall w1, resume o (Pending (GetContactById id) k) w1 =
      (inr (contact_name o id), name_rest o id w1).
Proof.
  intros Hd <-. unfold getName, get_data. rewrite Hd. unfold mbind, prog_bind. simpl.
  eexists; split; [reflexivity|]. intros w1. simpl.
  unfold name_rest, contact_name, contact_error.
  destruct (contact_api o (WasapiData.wa_id d)) as [e|[[[k|]]|]]; reflexivity.
Qed.

(** An inbound payload suspends on the contact lookup; resuming it
    emits the normalised message, or throws when [from_id] is missing. *)
Lemma eventInMsg_start_inbound (p : WasapiMessage.t) d wa w :
  WasapiMessage.data p = Some d -> WasapiData.type d = Some "in" ->
  WasapiData.wa_id d = Some wa -> includes wa "g.us" = false ->
  exists k, start o (eventInMsg p) w =
    (Pending (GetContactById (Some wa)) k, log w (TCall (GetContactById (Some wa)))) /\
    forall w1, resume o (Pending (GetContactById (Some wa)) k) w1 =
      match WasapiData.from_id d with
      | Some n => (inr (), emit_vendor "message" (PMessage (normalized o p d wa n))
                             (name_rest o (Some wa) w1))
      | None => (inl (TypeError "Cannot read properties of undefined (reading 'toString')"),
                 name_rest o (Some wa) w1)
      end.
Proof.
  intros Hd Ht Hw Hg.
  destruct (getName_start p d (Some wa) w Hd Hw) as [k [Hs Hr]].
  unfold eventInMsg, get_data, read_wa_id. rewrite Hd. unfold mbind at 1, prog_bind at 1.
  with_strategy opaque [getName] simpl. rewrite Ht, Hw. simpl. rewrite Hg.
  unfold mbind at 1, prog_bind at 1. rewrite start_bind, Hs.
  eexists; split; [reflexivity|]. intros w1. specialize (Hr w1). simpl in Hr |- *.
  rewrite run_bind, Hr.
  unfold from_id_toString. destruct (WasapiData.from_id d) as [n|]; run_simpl; [|done].
  rewrite classify_body_ref. unfold normalized.
  by destruct (media_token (WasapiData.message_type d)).
Qed.

(** What [getName] adds to the trace after the lookup's answer. *)
Definition name_tail (id : option string) : list trace_event :=
  match contact_error o id with
  | Some e => [TLog LogError "Error getting contact name:" (Some e)]
  | None => []
  end.

Lemma name_rest_spec id w :
  same_state (name_rest o id w) w /\ trace (name_rest o id w) = trace w ++ name_tail id /\
  (forall who, emits_by who (name_tail id) = []).
Proof.
  unfold name_rest, name_tail. destruct (contact_error o id); simpl;
    [|by rewrite app_nil_r]. done.
Qed.

(** C4: the webhook route answers ['ok'] with status 200 before the
    message is emitted: the delivery of an inbound payload issues the
    contact lookup, sends the response, and only then, when the lookup
    answers, emits the normalised message on the vendor. *)
Theorem ctrlInMsg_responds_before_emit (p : WasapiMessage.t) d wa n w :
  WasapiMessage.data p = Some d -> WasapiData.type d = Some "in" ->
  WasapiData.wa_id d = Some wa -> includes wa "g.us" = false ->
  WasapiData.from_id d = Some n ->
  exists rest w', deliver o p w = (inr (), w') /\
    trace w' = trace w ++ [TCall (GetContactById (Some wa)); TCall (HttpRespond 200 "ok")] ++ rest /\
    emits_by Vendor rest = [("message", PMessage (normalized o p d wa n))].
Proof.
  intros Hd Ht Hw Hg Hn.
  destruct (eventInMsg_start_inbound p d wa w Hd Ht Hw Hg) as [k [Hs Hr]].
  unfold deliver, ctrlInMsg. rewrite Hs. cbn -[resume emit_vendor name_rest]. rewrite Hr, Hn.
  set (w1 := log (log w _) _).
  destruct (name_rest_spec (Some wa) w1) as [[Hv [Hp _]] [Htr Hem]].
  do 2 eexists; split; [done|]. split.
  - rewrite (proj2 (emit_vendor_spec _ _ _)), Htr. simpl. by rewrite <-!app_assoc.
  - by rewrite emits_by_app, Hem, emits_by_vendor_events.
Qed.

(** C36: the example's handler answers 200 [{success:true}] even for a
    payload without [data]: [eventInMsg] is asynchronous, so its
    [TypeError] rejects the promise instead of reaching the [catch] that
    would answer 500. *)
Theorem example_webhook_malformed (p : WasapiMessage.t) w :
  WasapiMessage.data p = None ->
  example_webhook o p w =
  (Done (inl (TypeError "Cannot read properties of undefined (reading 'type')")),
   log w (TCall (HttpRespond 200 "{success:true}"))).
Proof. intros Hd. unfold example_webhook, eventInMsg, get_data. by rewrite Hd. Qed.

(** C35: an inbound payload without [from_id] is answered ['ok'], then its
    [eventInMsg] rejects with a [TypeError] that no one handles, and
    nothing is emitted. *)
Theorem deliver_rejects_after_ok (p : WasapiMessage.t) d wa w :
  WasapiMessage.data p = Some d -> WasapiData.type d = Some "in" ->
  WasapiData.wa_id d = Some wa -> includes wa "g.us" = false ->
  WasapiData.from_id d = None ->
  exists w', deliver o p w =
    (inl (TypeError "Cannot read properties of undefined (reading 'toString')"), w') /\
    TCall (HttpRespond 200 "ok") ∈ trace w' /\
    emits_by Vendor (trace w') = emits_by Vendor (trace w).
Proof.
  intros Hd Ht Hw Hg Hn.
  destruct (eventInMsg_start_inbound p d wa w Hd Ht Hw Hg) as [k [Hs Hr]].
  unfold deliver, ctrlInMsg. rewrite Hs. cbn -[resume name_rest]. rewrite Hr, Hn.
  destruct (name_rest_spec (Some wa) (log (log w (TCall (GetContactById (Some wa))))
                                          (TCall (HttpRespond 200 "ok"))))
    as [_ [Htr Hem]].
  eexists; split; [done|]. rewrite Htr. split; [set_solver|].
  rewrite emits_by_app, Hem, !trace_log, !emits_by_app. simpl. by rewrite !app_nil_r.
Qed.

(** What the bridge turns a vendor emit into, on the provider. *)
Lemma emits_by_Provider_bridge pm t p f :
  emits_by Provider (listener_events pm t p (Bridge f)) =
  match f with Forward t' => [(t', p)] | EmitConst t' v => [(t', v)] end.
Proof. destruct f; apply emits_by_provider_events. Qed.

Local Ltac bridge_case :=
  simplify_map_eq; simpl; rewrite ?app_nil_r, ?emits_by_deliveries; done.

(** The vendor's table once [listenOnEvents busEvents] ran on a fresh vendor. *)
Definition bus_table : gmap string (list listener) :=
  <["host" := [Bridge (Forward "host")]]> (<["message" := [Bridge (Forward "message")]]>
  (<["ready" := [Bridge (EmitConst "ready" (PBool true))]]>
  (<["auth_failure" := [Bridge (Forward "auth_failure")]]> ∅))).

Lemma listenOnEvents_busEvents w :
  vendor_on w = ∅ ->
  exec o (listenOnEvents busEvents) w =
  (inr (), mk_world bus_table (provider_on w) (trace w) (files w) (clock w)).
Proof. intros Hv. destruct w; simpl in *; subst. done. Qed.

(** C23: once [listenOnEvents] registered [busEvents] on a fresh vendor,
    a vendor emit of ['message'], ['auth_failure'] or ['host'] is re-emitted
    on the provider with the same payload, ['ready'] becomes the provider's
    [('ready', true)], and any other topic is not re-emitted; registering
    issues no request and changes no subscriber of the provider. *)
Theorem busEvents_bridge w :
  vendor_on w = ∅ ->
  exists w', exec o (listenOnEvents busEvents) w = (inr (), w') /\
    trace w' = trace w /\ provider_on w' = provider_on w /\
    forall w2 t p, vendor_on w2 = vendor_on w' ->
      emits_by Provider (trace (emit_vendor t p w2)) = emits_by Provider (trace w2) ++
        (if decide (t = "ready") then [("ready", PBool true)]
         else if decide (t ∈ ["auth_failure"; "message"; "host"]) then [(t, p)] else []).
Proof.
  intros Hv. rewrite listenOnEvents_busEvents by done.
  eexists; split_and!; [done..|]. intros w2 t p Hv2.
  rewrite emits_by_emit_vendor, Hv2. f_equal. unfold vendor_events, listeners, bus_table.
  cbn [vendor_on].
  destruct (decide (t = "host")) as [->|]; [by bridge_case|].
  destruct (decide (t = "message")) as [->|]; [by bridge_case|].
  destruct (decide (t = "ready")) as [->|]; [by bridge_case|].
  destruct (decide (t = "auth_failure")) as [->|]; [by bridge_case|].
  rewrite !lookup_insert_ne, lookup_empty by done. simpl.
  rewrite decide_False by set_solver. done.
Qed.

(** [initVendor] replaces the vendor, then runs the status check. *)
Lemma initVendor_run st w :
  exec o (initVendor st) w = exec o (initVendor_check st) (fresh_vendor w).
Proof. unfold initVendor at 1, mbind at 1, prog_bind at 1. by rewrite run_bind. Qed.

(** C24: [initVendor] sets the vendor before it awaits [checkStatus], so
    the check issues the request for the registered numbers (it does not
    fail on the missing client), returns the provider with its vendor set
    and its arguments kept, and emits one outcome on the provider. *)
Theorem initVendor_checks_status st w :
  exists st' w', exec o (initVendor st) w = (inr st', w') /\
    ProviderState.vendor_set st' = true /\
    ProviderState.globalVendorArgs st' = ProviderState.globalVendorArgs st /\
    calls (trace w') = calls (trace w) ++ [GetWhatsappNumbers] /\
    length (emits_by Provider (trace w')) = S (length (emits_by Provider (trace w))).
Proof.
  rewrite initVendor_run. unfold initVendor_check, mbind, prog_bind. rewrite run_bind, checkStatus_run.
  cbn [ProviderState.vendor_set].
  destruct (numbers_api o) as [e|r];
    [|destruct (WhatsappNumbers.data r) as [ds|];
      [destruct (find_device _ ds) as [e|[dev|]]|]];
    do 2 eexists; (split; [done|]);
    (split_and!; [done|done
    |rewrite trace_emit_provider, !trace_log, !calls_app, calls_provider_events; simpl;
     by rewrite ?app_nil_r
    |rewrite emits_by_emit_provider, ?emits_by_log by done;
     rewrite decide_True by done; rewrite length_app; simpl; lia]).
Qed.
End Proofs.

(** ** Witnesses, on the demo environment of [Runtime.v] *)

Definition bare_payload : WasapiMessage.t :=
  {| WasapiMessage.event := "message"; WasapiMessage.data := None |}.

Definition no_from_data : WasapiData.t :=
  demo_data (Some "in") (Some "text") (Some "521555@c.us") (Some "hola") None.

Definition no_from_payload : WasapiMessage.t :=
  {| WasapiMessage.event := "message"; WasapiMessage.data := Some no_from_data |}.

Lemma ctrlInMsg_responds_before_emit_witness :
  exists rest w', deliver demo_oracle hola_payload w0 = (inr (), w') /\
    trace w' = trace w0 ++ [TCall (GetContactById (Some "521555@c.us"));
                            TCall (HttpRespond 200 "ok")] ++ rest /\
    emits_by Vendor rest =
      [("message", PMessage (normalized demo_oracle hola_payload hola_data "521555@c.us" 999))].
Proof. apply (ctrlInMsg_responds_before_emit demo_oracle hola_payload hola_data); reflexivity. Defined.

Lemma example_webhook_malformed_witness :
  example_webhook demo_oracle bare_payload w0 =
  (Done (inl (TypeError "Cannot read properties of undefined (reading 'type')")),
   log w0 (TCall (HttpRespond 200 "{success:true}"))).
Proof. apply (example_webhook_malformed demo_oracle bare_payload). reflexivity. Defined.

Lemma deliver_rejects_after_ok_witness :
  exists w', deliver demo_oracle no_from_payload w0 =
    (inl (TypeError "Cannot read properties of undefined (reading 'toString')"), w') /\
    TCall (HttpRespond 200 "ok") ∈ trace w' /\
    emits_by Vendor (trace w') = emits_by Vendor (trace w0).
Proof. apply (deliver_rejects_after_ok demo_oracle no_from_payload no_from_data "521555@c.us"); reflexivity. Defined.

Lemma busEvents_bridge_witness :
  exists w', exec demo_oracle (listenOnEvents busEvents) w0 = (inr (), w') /\
    trace w' = trace w0 /\ provider_on w' = provider_on w0 /\
    forall w2 t p, vendor_on w2 = vendor_on w' ->
      emits_by Provider (trace (emit_vendor t p w2)) = emits_by Provider (trace w2) ++
        (if decide (t = "ready") then [("ready", PBool true)]
         else if decide (t ∈ ["auth_failure"; "message"; "host"]) then [(t, p)] else []).
Proof. apply (busEvents_bridge demo_oracle w0). reflexivity. Defined.

End WasapiProvider.
