(* ===== verification/Deliveries.v ===== *)
(** * Many webhook deliveries, settled in any order

    The provider's webhook route [ctrlInMsg] ([Provider.v]) answers at
    once and leaves the rest of [eventInMsg] to the event loop.
    [route_all] is the HTTP server handing the route the payloads in
    their order of arrival, keeping the pending calls; [resume_all] is
    the event loop settling pending calls in the order their contact
    lookups answer, with the promises' outcomes (a rejection is an
    unhandled rejection: nobody awaits the call).

    [ctrlInMsg_spec] is what one delivery does, from the code of
    [ctrlInMsg] and [eventInMsg]: the route emits nothing and changes
    nothing but the trace, and its pending call settles as the contract
    [inbound_spec] of [Events.v] says ([settles_as]); with BuilderBot's
    bridge [busEvents] on the vendor, as [listenOnEvents] leaves it after
    start-up ([Lifecycle.v]), its message reaches the provider too.  The
    theorem on schedules ([deliveries_refine]): any selection of the
    pending calls, in any order, settles with exactly the contract's
    outcomes and emits exactly the contract's messages, on the vendor and
    on the provider, in the order of the resumes. *)

From stdpp Require Import base strings list gmap.
From Stdlib Require Import ZArith.
From S2P Require Import Prelude Types Runtime Async Events Provider.

Local Open Scope string_scope.
Local Open Scope list_scope.

Module Deliveries.
Import Events.WasapiEvents Provider.WasapiProvider.

(** A webhook route: the request's body in, the pending call out. *)
Definition route_t : Type := WasapiMessage.t -> world -> task unit * world.

(** The route on each payload, in order of arrival. *)
Fixpoint route_all (route : route_t) (ps : list WasapiMessage.t) (w : world)
    : list (task unit) * world :=
  match ps with
  | [] => ([], w)
  | p :: ps' =>
      let '(t, w1) := route p w in
      let '(ts, w2) := route_all route ps' w1 in (t :: ts, w2)
  end.

(** The event loop settling the pending calls in the order given. *)
Fixpoint resume_all (o : oracle) (ts : list (task unit)) (w : world)
    : list (js_error + unit) * world :=
  match ts with
  | [] => ([], w)
  | t :: ts' =>
      let '(r, w1) := resume o t w in
      let '(rs, w2) := resume_all o ts' w1 in (r :: rs, w2)
  end.

Section Contract.
Context (o : oracle).

(** Resumed in any world where the bridge is installed, the pending call
    settles with the outcome of [r] and emits the message of [r], on the
    vendor and on the provider, changing nothing but the trace. *)
Definition settles_as (r : js_error + option BotMessage.t) (t : task unit) : Prop :=
  forall w, vendor_on w = bus_table ->
  exists w', resume o t w = (spec_result r, w') /\ same_state w' w /\
    forall who, emits_by who (trace w') = emits_by who (trace w) ++ spec_emits r.

Lemma settles_as_done r : spec_emits r = [] -> settles_as r (Done (spec_result r)).
Proof. intros He w _. exists w. split_and!; [done|done|]. intros who. by rewrite He, app_nil_r. Qed.

(** Through the bridge a vendor ['message'] is also the provider's. *)
Lemma emits_by_bus_message who pm m :
  emits_by who (vendor_events bus_table pm "message" m) = [("message", m)].
Proof.
  destruct who; [apply emits_by_vendor_events|].
  unfold vendor_events, listeners, bus_table.
  rewrite lookup_insert_ne, lookup_insert_eq by done. simpl.
  by rewrite app_nil_r, emits_by_deliveries.
Qed.

Lemma name_rest_emits who id w :
  emits_by who (trace (name_rest o id w)) = emits_by who (trace w).
Proof.
  destruct (name_rest_spec o id w) as [_ [-> Hem]]. by rewrite emits_by_app, Hem, app_nil_r.
Qed.

Local Ltac start_done Hd :=
  unfold eventInMsg, get_data, read_wa_id, mbind, prog_bind; rewrite Hd; simpl.

(** [eventInMsg] run to its first [await]: nothing emitted yet, and the
    rest settles as the contract says. *)
Lemma eventInMsg_start_spec p w :
  same_state (snd (start o (eventInMsg p) w)) w /\
  (forall who, emits_by who (trace (snd (start o (eventInMsg p) w))) = emits_by who (trace w)) /\
  settles_as (inbound_spec o p) (fst (start o (eventInMsg p) w)).
Proof.
  unfold inbound_spec. destruct (WasapiMessage.data p) as [d|] eqn:Hd.
  2:{ start_done Hd. split_and!; [done|done|]. by apply (settles_as_done (inl _)). }
  case_bool_decide as Ht.
  { start_done Hd. rewrite bool_decide_true by done. simpl.
    split_and!; [done|done|]. by apply (settles_as_done (inr None)). }
  assert (Ht' : WasapiData.type d = Some "in")
    by (by destruct (WasapiData.type d) as [[]|]; try tauto; apply dec_stable).
  destruct (WasapiData.wa_id d) as [wa|] eqn:Hw.
  2:{ start_done Hd. rewrite Ht', Hw. simpl.
      split_and!; [done|done|]. by apply (settles_as_done (inl _)). }
  destruct (includes wa "g.us") eqn:Hg.
  { start_done Hd. rewrite Ht', Hw. simpl. rewrite Hg. simpl.
    split_and!; [done|done|]. by apply (settles_as_done (inr None)). }
  destruct (eventInMsg_start_inbound o p d wa w Hd Ht' Hw Hg) as [k [-> Hr]]. simpl.
  split_and!; [done|intros; by apply emits_by_log|]. intros w1 Hv. rewrite Hr.
  destruct (name_rest_spec o (Some wa) w1) as [Hs _].
  destruct (WasapiData.from_id d) as [n|]; eexists; (split; [done|]).
  - destruct (emit_vendor_spec "message" (PMessage (normalized o p d wa n)) (name_rest o (Some wa) w1))
      as [Hs' _].
    split; [by rewrite Hs'|]. intros who.
    rewrite emits_by_emit_vendor, name_rest_emits. destruct Hs as [-> _].
    by rewrite Hv, emits_by_bus_message.
  - split; [done|]. intros who. by rewrite name_rest_emits, app_nil_r.
Qed.

(** The response is a traced request: it neither emits nor changes state. *)
Lemma respond_after_start p w status body :
  let w1 := snd (handle o (HttpRespond status body) (snd (start o (eventInMsg p) w))) in
  same_state w1 w /\ forall who, emits_by who (trace w1) = emits_by who (trace w).
Proof.
  destruct (eventInMsg_start_spec p w) as [Hs [He _]]. simpl.
  split; [etrans; [apply log_same_state|exact Hs]|]. intros who. rewrite <-He. by apply (emits_by_log who _ (TCall (HttpRespond status body))).
Qed.

(** One delivery to the provider's route. *)
Lemma ctrlInMsg_spec p w :
  same_state (snd (ctrlInMsg o p w)) w /\
  (forall who, emits_by who (trace (snd (ctrlInMsg o p w))) = emits_by who (trace w)) /\
  settles_as (inbound_spec o p) (fst (ctrlInMsg o p w)).
Proof.
  pose proof (eventInMsg_start_spec p w) as (_ & _ & Ht).
  pose proof (respond_after_start p w 200 "ok") as [Hs He].
  unfold ctrlInMsg. destruct (start o (eventInMsg p) w) as [t w1]. done.
Qed.

End Contract.

(** ** Schedules *)

Section Schedules.
Context (o : oracle).

Lemma route_all_spec ps w :
  same_state (snd (route_all (ctrlInMsg o) ps w)) w /\
  (forall who, emits_by who (trace (snd (route_all (ctrlInMsg o) ps w))) = emits_by who (trace w)) /\
  Forall2 (fun p t => settles_as o (inbound_spec o p) t) ps (fst (route_all (ctrlInMsg o) ps w)).
Proof.
  revert w; induction ps as [|p ps IH]; intros w; [split_and!; [done|done|constructor]|].
  simpl. destruct (ctrlInMsg_spec o p w) as (Hs & He & Ht).
  destruct (ctrlInMsg o p w) as [t w1]; simpl in *. destruct (IH w1) as (Hs' & He' & Hts).
  destruct (route_all (ctrlInMsg o) ps w1) as [ts w2]; simpl in *.
  split_and!; [by etrans|intros; by rewrite He', He|by constructor].
Qed.

Lemma resume_all_spec qs ts w :
  Forall2 (fun p t => settles_as o (inbound_spec o p) t) qs ts -> vendor_on w = bus_table ->
  fst (resume_all o ts w) = map (fun p => spec_result (inbound_spec o p)) qs /\
  same_state (snd (resume_all o ts w)) w /\
  forall who, emits_by who (trace (snd (resume_all o ts w))) =
    emits_by who (trace w) ++ mjoin (map (fun p => spec_emits (inbound_spec o p)) qs).
Proof.
  intros Hqt. revert w. induction Hqt as [|p t qs ts Ht _ IH]; intros w Hv.
  - split_and!; [done|done|intros; by rewrite app_nil_r].
  - destruct (Ht w Hv) as (w1 & Hr & Hs & He). simpl. rewrite Hr.
    destruct (IH w1) as (Hr' & Hs' & He'); [by destruct Hs as [-> _]|].
    destruct (resume_all o ts w1) as [rs w2]; simpl in *.
    split_and!; [by f_equal|by etrans|intros who; by rewrite He', He, app_assoc].
Qed.

(** Routing [ps], then settling the calls at the indices [order]. *)
Lemma schedule_spec ps w (order : list nat) :
  vendor_on w = bus_table ->
  let routed := route_all (ctrlInMsg o) ps w in
  let settled := resume_all o (omap (fst routed !!.) order) (snd routed) in
  (forall who, emits_by who (trace (snd routed)) = emits_by who (trace w)) /\
  fst settled = map (fun p => spec_result (inbound_spec o p)) (omap (ps !!.) order) /\
  forall who, emits_by who (trace (snd settled)) =
    emits_by who (trace w) ++ mjoin (map (fun p => spec_emits (inbound_spec o p)) (omap (ps !!.) order)).
Proof.
  intros Hv; cbv zeta. destruct (route_all_spec ps w) as (Hs & He & Hts).
  destruct (resume_all_spec (omap (ps !!.) order) (omap (fst (route_all (ctrlInMsg o) ps w) !!.) order)
              (snd (route_all (ctrlInMsg o) ps w)))
    as (Hr & _ & He').
  { by apply Forall2_select. }
  { by destruct Hs as [-> _]. }
  split_and!; [done|done|]. intros who. by rewrite He', He.
Qed.

(** C7: any number of webhook deliveries to the provider's route
    [ctrlInMsg], routed in their order of arrival, then settled by the
    event loop in any order (any selection of the pending calls, by
    index): routing emits nothing; the calls settle with exactly the
    outcomes the contract [inbound_spec] gives their payloads (a
    malformed payload is an unhandled rejection that leaves the others
    unaffected); and, the [busEvents] bridge being on the vendor, the
    vendor and the provider emit exactly the contract's messages, in the
    order of the resumes. *)
Theorem deliveries_refine ps w (order : list nat) :
  vendor_on w = bus_table ->
  let routed := route_all (ctrlInMsg o) ps w in
  let settled := resume_all o (omap (fst routed !!.) order) (snd routed) in
  (forall who, emits_by who (trace (snd routed)) = emits_by who (trace w)) /\
  fst settled = map (fun p => spec_result (inbound_spec o p)) (omap (ps !!.) order) /\
  forall who, emits_by who (trace (snd settled)) =
    emits_by who (trace w) ++ mjoin (map (fun p => spec_emits (inbound_spec o p)) (omap (ps !!.) order)).
Proof. apply schedule_spec. Qed.

End Schedules.

(** ** Witnesses, on the demo environment of [Runtime.v] *)

(** The demo world once [listenOnEvents busEvents] installed the bridge. *)
Definition bridged : world := snd (exec demo_oracle (listenOnEvents busEvents) w0).

Definition demo_payload2 : WasapiMessage.t :=
  {| WasapiMessage.event := "message";
     WasapiMessage.data := Some (demo_data (Some "in") (Some "text") (Some "521777@c.us")
                                           (Some "hi") (Some 999%Z)) |}.

(** A message, a group message, a payload without [data], one without
    [from_id], and a second message. *)
Definition demo_batch : list WasapiMessage.t :=
  [hola_payload; group_payload; bare_payload; no_from_payload; demo_payload2].

Lemma deliveries_refine_witness :
  vendor_on bridged = bus_table /\
  let routed := route_all (ctrlInMsg demo_oracle) demo_batch bridged in
  let settled := resume_all demo_oracle (omap (fst routed !!.) [4; 2; 0; 3]) (snd routed) in
  (forall who, emits_by who (trace (snd routed)) = emits_by who (trace bridged)) /\
  fst settled = map (fun p => spec_result (inbound_spec demo_oracle p))
                    (omap (demo_batch !!.) [4; 2; 0; 3]) /\
  forall who, emits_by who (trace (snd settled)) =
    emits_by who (trace bridged) ++
    mjoin (map (fun p => spec_emits (inbound_spec demo_oracle p)) (omap (demo_batch !!.) [4; 2; 0; 3])).
Proof.
  split; [reflexivity|].
  apply (deliveries_refine demo_oracle demo_batch bridged [4; 2; 0; 3]).
  reflexivity.
Defined.

End Deliveries.
