(* ===== verification/Example.v ===== *)
(** * The example application: [registerWasapiWebhook] and its bootstrap

    [src/examples/events/wasapiWebhook.ts/wasapiWebhook.ts] builds a
    [WasapiEvents] from an API key, registers the Express route whose
    handler is [Provider.WasapiProvider.example_webhook], and subscribes a
    listener to ['message'] that prints the adapted message ([Printer] of
    [Runtime.v]).  [src/examples/events/wasapiWebhook.ts/index.ts] reads
    [PORT] and [API_KEY_WASAPI] from the environment, with [||] defaults,
    registers the webhook and starts the server.  The HTTP plumbing
    ([express()], [app.use], [app.post], [app.listen]) is not modelled;
    the console line of the listening callback is.

    The theorems: a message delivered to the example is printed with its name, sender,
    body and host phone; and the example starts without complaint with an
    empty API key. *)

From stdpp Require Import base strings list gmap.
From Stdlib Require Import ZArith.
From S2P Require Import Prelude Types Runtime Async Events Provider.

Local Open Scope string_scope.

Module Example.
Import Events.WasapiEvents Provider.WasapiProvider.

(** [registerWasapiWebhook(app, apiKey)] (wasapiWebhook.ts, lines 5-31). *)
Definition registerWasapiWebhook (apiKey : string) : M WasapiEvents.t :=
  let wasapiEvents := WasapiEvents.constructor apiKey in
  call (OnVendor "message" Printer);;
  mret wasapiEvents.

(** The process environment read by [index.ts]; [None] is an unset variable. *)
Record env := { PORT : option string; API_KEY_WASAPI : option string }.

(** [v || d] on an environment variable: unset and empty fall back to [d]. *)
Definition env_or (v : option string) (d : string) : string :=
  match v with
  | Some s => if bool_decide (s = "") then d else s
  | None => d
  end.

(** [index.ts] (lines 6-17), once [dotenv.config()] has filled [e]. *)
Definition main (e : env) : M WasapiEvents.t :=
  wasapiEvents ← registerWasapiWebhook (env_or (API_KEY_WASAPI e) "");
  call (ConsoleLog LogInfo ("Servidor escuchando en http://localhost:" ++ env_or (PORT e) "3000")
          None);;
  mret wasapiEvents.

(** A delivery to the example: the route, then the event loop. *)
Definition example_deliver (o : oracle) (body : WasapiMessage.t) (w : world)
    : (js_error + unit) * world :=
  let '(t, w1) := example_webhook o body w in resume o t w1.

Local Open Scope list_scope.

Section Proofs.
Context (o : oracle).

(** The table [registerWasapiWebhook] leaves on a fresh emitter. *)
Lemma registerWasapiWebhook_run apiKey w :
  vendor_on w = ∅ ->
  exec o (registerWasapiWebhook apiKey) w =
  (inr (WasapiEvents.constructor apiKey),
   mk_world {["message" := [Printer]]} (provider_on w) (trace w) (files w) (clock w)).
Proof. intros Hv. destruct w; simpl in *; subst. done. Qed.

(** C8: an inbound message from a non-group chat delivered to the example
    is printed: after [registerWasapiWebhook] on a fresh emitter, the
    delivery looks the contact up, answers 200 [{success:true}], then
    emits the normalised message, whose listener prints the greeting and
    the name, sender, body and host phone, in that order. *)
Theorem example_prints_message apiKey (p : WasapiMessage.t) d wa n w :
  vendor_on w = ∅ ->
  WasapiMessage.data p = Some d -> WasapiData.type d = Some "in" ->
  WasapiData.wa_id d = Some wa -> includes wa "g.us" = false ->
  WasapiData.from_id d = Some n ->
  let m := normalized o p d wa n in
  exists w1 w2, exec o (registerWasapiWebhook apiKey) w = (inr (WasapiEvents.constructor apiKey), w1) /\
    example_deliver o p w1 = (inr (), w2) /\
    trace w2 = trace w ++ [TCall (GetContactById (Some wa));
                           TCall (HttpRespond 200 "{success:true}")] ++
               name_tail o (Some wa) ++ TEmit Vendor "message" (PMessage m) ::
               printer_lines (PMessage m).
Proof.
  intros Hv Hd Ht Hw Hg Hn m. rewrite registerWasapiWebhook_run by done.
  set (w1 := mk_world _ _ _ _ _).
  destruct (eventInMsg_start_inbound o p d wa w1 Hd Ht Hw Hg) as [k [Hs Hr]].
  do 2 eexists. split; [done|]. unfold example_deliver, example_webhook, async_call. rewrite Hs.
  cbn -[resume emit_vendor name_rest]. rewrite Hr, Hn. split; [done|].
  set (w2 := log (log w1 _) _).
  destruct (name_rest_spec o (Some wa) w2) as [[Hv2 _] [Htr _]].
  rewrite (proj2 (emit_vendor_spec _ _ _)), Htr, Hv2. unfold vendor_events, listeners, w2, w1.
  cbn [vendor_on log trace]. rewrite lookup_singleton_eq. simpl.
  by rewrite <-!app_assoc.
Qed.

(** C37: [index.ts] starts the example with an empty API key when
    [API_KEY_WASAPI] is unset or empty ([|| ""]): no check rejects it, so
    every contact lookup runs unauthenticated; the listening line names
    port 3000 when [PORT] is unset or empty. *)
Theorem main_without_key (e : env) w :
  vendor_on w = ∅ ->
  env_or (API_KEY_WASAPI e) "" = "" ->
  exists w', exec o (main e) w = (inr (WasapiEvents.constructor ""), w') /\
    WasapiClient.token (WasapiEvents.getClient (WasapiEvents.constructor "")) = "" /\
    listeners (vendor_on w') "message" = [Printer] /\
    trace w' = trace w ++
      [TLog LogInfo ("Servidor escuchando en http://localhost:" ++ env_or (PORT e) "3000") None].
Proof.
  intros Hv Hk. unfold main, mbind, prog_bind. rewrite run_bind, Hk, registerWasapiWebhook_run by done.
  run_simpl. eexists. split; [reflexivity|]. split; [done|]. split; [|done].
  unfold listeners. cbn [vendor_on log]. by rewrite lookup_singleton_eq.
Qed.

End Proofs.

(** ** Witnesses *)

Lemma example_prints_message_witness :
  let m := normalized demo_oracle hola_payload hola_data "521555@c.us" 999 in
  exists w1 w2,
    exec demo_oracle (registerWasapiWebhook "key") w0 =
      (inr (WasapiEvents.constructor "key"), w1) /\
    example_deliver demo_oracle hola_payload w1 = (inr (), w2) /\
    trace w2 = trace w0 ++ [TCall (GetContactById (Some "521555@c.us"));
                            TCall (HttpRespond 200 "{success:true}")] ++
               name_tail demo_oracle (Some "521555@c.us") ++ TEmit Vendor "message" (PMessage m) ::
               printer_lines (PMessage m).
Proof.
  apply (example_prints_message demo_oracle "key" hola_payload hola_data "521555@c.us" 999 w0);
    reflexivity.
Defined.

Lemma main_without_key_witness :
  let e := {| PORT := None; API_KEY_WASAPI := None |} in
  exists w', exec demo_oracle (main e) w0 = (inr (WasapiEvents.constructor ""), w') /\
    WasapiClient.token (WasapiEvents.getClient (WasapiEvents.constructor "")) = "" /\
    listeners (vendor_on w') "message" = [Printer] /\
    trace w' = trace w0 ++
      [TLog LogInfo ("Servidor escuchando en http://localhost:" ++ env_or (PORT e) "3000") None].
Proof. intros e. apply (main_without_key demo_oracle e w0); reflexivity. Defined.

End Example.
