(* ===== verification/Frame.v ===== *)
(** * Frame: what the operations' requests can and cannot do

    A request is [good] when it registers no listener ([on] is the only
    request that changes a listener table, [OnVendor] and [OnProvider] of
    [Runtime.v]; nor creates a new vendor, [NewVendor]) and every emit it makes carries the payload its topic
    promises ([emit_typed]: ['message'] a message, ['ready'] nothing or
    [true], ['auth_failure'] a non-empty list of instructions).  All the
    requests of [eventInMsg], [checkStatus], [sendMessage],
    [sendAttachment] and [saveFile] are good ([reqs_ok good]), and so are
    those of [initVendor] after it creates the new vendor
    ([initVendor_check]).

    Section [Inv] lifts a property of the world that every good request
    keeps to whole runs ([exec]), to the two halves of an unawaited call
    ([start], [resume]) and to the webhook route; [Lifecycle.v] uses it
    for the listener tables and [Typing.v] for the payloads. *)

From stdpp Require Import base strings list gmap.
From Stdlib Require Import ZArith.
From S2P Require Import Prelude Types Runtime Async Events Config Status Dispatch Attachment Provider.

Local Open Scope string_scope.

Module Frame.
Import Events.WasapiEvents Status.WasapiProvider Dispatch.WasapiProvider
  Attachment.WasapiProvider Provider.WasapiProvider.

(** The requests that change a listener table. *)
Definition registers (r : req) : bool :=
  match r with OnVendor _ _ | OnProvider _ _ | NewVendor => true | _ => false end.

Definition no_reg (r : req) : Prop := registers r = false.

(** The payload a topic of BuilderBot's event surface carries. *)
Definition topic_typed (topic : string) (p : payload) : bool :=
  match p with
  | PMessage _ => bool_decide (topic = "message")
  | PUndefined | PBool true => bool_decide (topic = "ready")
  | PInstructions (_ :: _) => bool_decide (topic = "auth_failure")
  | _ => false
  end.

(** The vendor only emits messages; the provider emits typed payloads. *)
Definition emit_typed (r : req) : bool :=
  match r with
  | Emit Vendor t p => bool_decide (t = "message") && topic_typed t p
  | Emit Provider t p => topic_typed t p
  | _ => true
  end.

Definition good (r : req) : Prop := registers r = false /\ emit_typed r = true.

(** The listener tables of a world are [vm] and [pm]. *)
Definition tables_are (vm : gmap string (list listener)) (pm : gmap string (list nat))
    (w : world) : Prop :=
  vendor_on w = vm /\ provider_on w = pm.

(** A pending call whose request and continuation satisfy [P]. *)
Definition task_inv (P : req -> Prop) {A} (t : task A) : Prop :=
  match t with
  | Done _ => True
  | Pending r k => P r /\ forall x, reqs_ok P (k x)
  end.

Section Inv.
Context (o : oracle) (P : req -> Prop) (I : world -> Prop).
Hypothesis (HC : forall r w, P r -> I w -> I (snd (complete o r w))).
Hypothesis (HL : forall r w, P r -> I w -> I (log w (TCall r))).

Lemma handle_inv r w : P r -> I w -> I (snd (handle o r w)).
Proof. intros Hr Hw. unfold handle. apply HC; [done|]. destruct (suspends r); auto. Qed.

Lemma exec_inv {A} (p : M A) w : reqs_ok P p -> I w -> I (snd (exec o p w)).
Proof. intros Hp Hw. apply (run_frame P _ _ p w); [|done|done]. intros. by apply handle_inv. Qed.

Lemma start_inv {A} (p : M A) w :
  reqs_ok P p -> I w -> task_inv P (fst (start o p w)) /\ I (snd (start o p w)).
Proof.
  intros Hp. revert w. induction Hp as [a|e|r k Hr Hk IH]; intros w Hw; [done|done|].
  simpl. destruct (suspends r); [split; [done|by apply HL]|].
  pose proof (HC r w Hr Hw) as Hc.
  destruct (complete o r w) as [x w']. by apply IH.
Qed.

Lemma resume_inv {A} (t : task A) w : task_inv P t -> I w -> I (snd (resume o t w)).
Proof.
  destruct t as [r|r k]; [done|]. intros [Hr Hk] Hw. simpl.
  pose proof (HC r w Hr Hw) as Hc.
  destruct (complete o r w) as [x w']. by apply exec_inv.
Qed.

Lemma ctrlInMsg_inv body w :
  P (HttpRespond 200 "ok") -> reqs_ok P (eventInMsg body) -> I w ->
  task_inv P (fst (ctrlInMsg o body w)) /\ I (snd (ctrlInMsg o body w)).
Proof.
  intros Hh He Hw. unfold ctrlInMsg.
  destruct (start_inv (eventInMsg body) w He Hw) as [Ht Hw1].
  destruct (start o (eventInMsg body) w) as [t w1]. split; [done|].
  by apply handle_inv.
Qed.
End Inv.

Lemma reqs_ok_mono (P Q : req -> Prop) {A} (p : M A) :
  (forall r, P r -> Q r) -> reqs_ok P p -> reqs_ok Q p.
Proof. intros HPQ. induction 1; constructor; auto. Qed.

(** ** All the operations' requests are good *)

Lemma call_ok r : good r -> reqs_ok good (call (Ans:=ans) (Err:=js_error) r).
Proof. apply reqs_ok_call. Qed.

Ltac reqs_ok_tac :=
  unfold mbind, prog_bind, mret, prog_ret;
  repeat first
    [ apply ok_ret | apply ok_raise
    | apply reqs_ok_bind; [|intros ?]
    | apply reqs_ok_catch; [|intros ?]
    | match goal with |- reqs_ok _ (call ?r) => apply (call_ok r); split; reflexivity end
    | progress unfold get_data
    | apply reqs_ok_find_m; intros ?
    | progress case_match ].

Lemma getName_ok p : reqs_ok good (getName p).
Proof. unfold getName, get_data. reqs_ok_tac. Qed.

Lemma eventInMsg_ok p : reqs_ok good (eventInMsg p).
Proof.
  unfold eventInMsg, get_data, read_wa_id, from_id_toString, classify_body, set_body_if.
  reqs_ok_tac.
Qed.

Lemma checkStatus_ok st deviceId : reqs_ok good (checkStatus st deviceId).
Proof. unfold checkStatus, getClient, device_matches. reqs_ok_tac. Qed.

(** After [new WasapiEvents], the only request of [initVendor] that
    changes a listener table, its requests are good. *)
Lemma initVendor_check_ok st : reqs_ok good (initVendor_check st).
Proof.
  unfold initVendor_check, mbind, prog_bind. apply reqs_ok_bind; [apply checkStatus_ok|constructor].
Qed.

Lemma sendMessage_ok st u m : reqs_ok good (sendMessage st u m).
Proof. unfold sendMessage, getClient. reqs_ok_tac. Qed.

Lemma sendAttachment_ok st u fp c fn : reqs_ok good (sendAttachment st u fp c fn).
Proof. unfold sendAttachment, getClient. reqs_ok_tac. Qed.

Lemma saveFile_ok mime_db st media path : reqs_ok good (saveFile mime_db st media path).
Proof. unfold saveFile, downloadFile. reqs_ok_tac. Qed.

(** ** The listener tables *)

Section Tables.
Context (o : oracle).

Lemma complete_tables vm pm r w :
  good r -> tables_are vm pm w -> tables_are vm pm (snd (complete o r w)).
Proof.
  unfold tables_are. intros [Hr _] [Hv Hp].
  destruct r as [| | | | |path d| | | | | |who t p| | |]; simpl in *; try done.
  - by destruct (fs_write o path d).
  - destruct who; simpl.
    + destruct (emit_vendor_spec t p w) as [[? [? _]] _]. split; congruence.
    + destruct (emit_provider_spec t p w) as [[? [? _]] _]. split; congruence.
Qed.

Lemma log_tables vm pm e w : tables_are vm pm w -> tables_are vm pm (log w e).
Proof. done. Qed.
End Tables.

End Frame.
