(* ===== verification/Typing.v ===== *)
(** * Typing: subscribers only see well-formed events

    BuilderBot's event surface has fixed topics, each with the payload it
    carries: ['message'] a normalised message, ['ready'] nothing (or
    [true] through the bridge), ['auth_failure'] a non-empty list of
    instructions ([Frame.topic_typed]).  Once [listenOnEvents busEvents]
    has installed the bridge on a fresh vendor ([Provider.v]), every emit
    of every run of the process ([Lifecycle.v]), through the start-up
    phases (the new vendor of [initVendor], unbridged while the status
    check is pending, then bridged again by [listenOnEvents]), on the
    vendor or on the provider, directly or through the bridge, carries
    its topic's payload: no partial or malformed event is ever
    published. *)

From stdpp Require Import base strings list gmap relations.
From Stdlib Require Import ZArith.
From S2P Require Import Prelude Types Runtime Async Events Config Status Dispatch Attachment Provider Frame Lifecycle.

Local Open Scope string_scope.
Local Open Scope list_scope.

Module Typing.
Import Config.WasapiProvider Provider.WasapiProvider Frame.Frame Lifecycle.Lifecycle.

(** A trace event is typed when, being an emit, its payload fits its topic. *)
Definition ev_typed (e : trace_event) : Prop :=
  match e with TEmit _ t p => topic_typed t p = true | _ => True end.

(** The emits of a trace all carry their topic's payload. *)
Definition emits_typed (tr : list trace_event) : Prop :=
  Forall (fun '(_, t, p) => topic_typed t p = true) (emits tr).

(** The world has, in the phase [ph] of a start-up whose vendor was
    bridged before it, the vendor table of the phase, the provider's
    table [pm], and its trace extends [tr0] with typed events only. *)
Definition typed_world (pm : gmap string (list nat)) (tr0 : list trace_event)
    (ph : phase) (w : world) : Prop :=
  tables_by_phase bus_table pm ph w /\ exists tr, trace w = tr0 ++ tr /\ Forall ev_typed tr.

Section Proofs.
Context (o : oracle) (mime_db : gmap string (list string)).

Lemma provider_events_typed pm t p :
  topic_typed t p = true -> Forall ev_typed (provider_events pm t p).
Proof.
  intros Ht. constructor; [done|]. apply Forall_forall. intros e.
  rewrite list_elem_of_fmap. by intros [n [-> _]].
Qed.

Lemma typed_world_app pm tr0 ph w tr :
  typed_world pm tr0 ph w -> Forall ev_typed tr ->
  exists tr', trace w ++ tr = tr0 ++ tr' /\ Forall ev_typed tr'.
Proof.
  intros [_ [tr1 [-> H1]]] H. exists (tr1 ++ tr).
  split; [by rewrite app_assoc|]. by apply Forall_app.
Qed.

(** A vendor emit of a message, with no listener or through the bridge. *)
Lemma vendor_events_typed ph pm t p :
  t = "message" -> topic_typed t p = true ->
  Forall ev_typed (vendor_events (vendor_table bus_table ph) pm t p).
Proof.
  intros -> Ht. constructor; [done|].
  destruct ph; cbn [vendor_table]; unfold listeners;
    [| rewrite lookup_empty; constructor |];
    unfold bus_table; rewrite lookup_insert_ne, lookup_insert_eq by done;
    simpl; rewrite app_nil_r; by apply provider_events_typed.
Qed.

Lemma complete_typed pm tr0 ph r w :
  good r -> typed_world pm tr0 ph w -> typed_world pm tr0 ph (snd (complete o r w)).
Proof.
  intros Hr Hw. pose proof Hw as [Htab Htr].
  pose proof (complete_tables o _ _ r w Hr Htab) as Htab'.
  split; [done|]. destruct Htab as [Hv Hp].
  destruct Hr as [_ Hty].
  destruct r as [| | | | |path d| | | |lvl msg err|st b|who t p| | |]; simpl in *; try done.
  - destruct (fs_write o path d); done.
  - rewrite ?trace_log. apply (typed_world_app pm tr0 ph w); [done|]. by repeat constructor.
  - rewrite ?trace_log. apply (typed_world_app pm tr0 ph w); [done|]. by repeat constructor.
  - destruct who.
    + apply andb_prop in Hty as [Ht Hty]. apply bool_decide_eq_true in Ht.
      rewrite (proj2 (emit_vendor_spec _ _ _)), Hv, Hp.
      apply (typed_world_app pm tr0 ph w); [done|]. by apply vendor_events_typed.
    + rewrite trace_emit_provider, Hp. apply (typed_world_app pm tr0 ph w); [done|].
      by apply provider_events_typed.
Qed.

Lemma log_typed pm tr0 ph r w :
  typed_world pm tr0 ph w -> typed_world pm tr0 ph (log w (TCall r)).
Proof.
  intros Hw. pose proof Hw as [Htab _]. split; [done|].
  rewrite trace_log. apply (typed_world_app pm tr0 ph w); [done|]. by repeat constructor.
Qed.

Lemma ev_typed_emits tr : Forall ev_typed tr -> emits_typed tr.
Proof.
  unfold emits_typed.
  induction 1 as [|e tr He _ IH]; [constructor|].
  destruct e; simpl; [done|by constructor|done|done].
Qed.

(** C14: once [listenOnEvents busEvents] has installed the bridge on a
    fresh vendor, every emit of every run of the process from a
    constructed provider, on either emitter and through the bridge, carries
    the payload its topic promises: a message on ['message'], nothing or
    [true] on ['ready'], a non-empty list of instructions on
    ['auth_failure']. *)
Theorem reachable_emits_typed args w w0 s0 s :
  vendor_on w = ∅ -> exec o (listenOnEvents busEvents) w = (inr (), w0) ->
  initial args w0 = Some s0 -> reachable o mime_db s0 s ->
  exists tr, trace (world_of s) = trace w0 ++ tr /\ emits_typed tr.
Proof.
  intros Hv Hl. rewrite listenOnEvents_busEvents in Hl by done. injection Hl as <-.
  unfold initial. destruct (constructor args) as [|st0]; [done|]. intros [= <-] Hr.
  apply (reachable_world_inv o mime_db (typed_world (provider_on w) (trace w))) in Hr.
  - destruct Hr as [[_ [tr [Htr Hty]]] _]. exists tr. split; [done|].
    by apply ev_typed_emits.
  - intros. by apply complete_typed.
  - intros. by apply log_typed.
  - intros ph w1 [[Hv1 Hp1] Htr]. by split; [split|].
  - intros w1 t [[Hv1 Hp1] Htr]. by split; [split|].
  - intros t w1 [[Hv1 Hp1] Htr]. rewrite listenOnEvents_busEvents by done.
    by split; [split|].
  - split; [|split; [constructor|done]]. split; [by split|]. exists []. by rewrite app_nil_r.
Qed.

End Proofs.

(** A run on the demo environment: a bridged start, then BuilderBot's
    start-up: [initVendor] replaces the vendor, its status check emits
    ['ready'] on the provider, and [listenOnEvents] bridges the new
    vendor. *)
Definition demo_bridged : world := snd (exec demo_oracle (listenOnEvents busEvents) w0).

Definition demo_start : task ProviderState.t * world :=
  start demo_oracle (initVendor demo_state) demo_bridged.

Definition demo_checked : (js_error + ProviderState.t) * world :=
  resume demo_oracle (fst demo_start) (snd demo_start).

Definition demo_after_init : sys :=
  mk_sys (vendor_started demo_state)
    (snd (exec demo_oracle (listenOnEvents busEvents) (snd demo_checked))) [] Booted.

Lemma reachable_emits_typed_witness :
  let s0 := mk_sys demo_state demo_bridged [] Idle in
  vendor_on w0 = ∅ /\ exec demo_oracle (listenOnEvents busEvents) w0 = (inr (), demo_bridged) /\
  initial demo_args demo_bridged = Some s0 /\ reachable demo_oracle ∅ s0 demo_after_init /\
  exists tr, trace (world_of demo_after_init) = trace demo_bridged ++ tr /\ emits_typed tr.
Proof.
  intros s0.
  assert (Hr : reachable demo_oracle ∅ s0 demo_after_init).
  { apply (rtc_l _ _ (mk_sys (vendor_started demo_state) (snd demo_start) []
                         (Checking (fst demo_start)))).
    - apply (step_init demo_oracle ∅ s0); reflexivity.
    - apply rtc_once.
      apply (step_booted demo_oracle ∅
               (mk_sys (vendor_started demo_state) (snd demo_start) [] (Checking (fst demo_start)))
               (fst demo_start) (vendor_started demo_state)
               (snd demo_checked)
               (snd (exec demo_oracle (listenOnEvents busEvents) (snd demo_checked))));
        reflexivity. }
  split_and!; [reflexivity|reflexivity|reflexivity|exact Hr|].
  apply (reachable_emits_typed demo_oracle ∅ demo_args w0 demo_bridged s0 demo_after_init);
    [reflexivity|reflexivity|reflexivity|exact Hr].
Defined.

End Typing.
