(* ===== verification/Rollup.v ===== *)
(** * The build configuration: [rollup.config.js]

    [src/rollup.config.js] exports one rollup configuration.  Its logic is
    the list of external modules, the keys of the package's
    [dependencies] then of its [peerDependencies] (each [|| {}] when the
    field is missing, lines 8-11), and the [onwarn] callback, which drops
    the warnings of code [UNRESOLVED_IMPORT] and passes every other one to
    rollup's [warn] (lines 24-27).  The rest is data: the two inputs, the
    ES-module and CommonJS outputs and the options of the TypeScript
    plugin (lines 13-43).  Reading [package.json] (lines 5-6) is file I/O:
    the parsed object is the argument [pkg]; a JSON object is the list of
    its entries in the order [Object.keys] returns them.

    The theorems: a module is external exactly when it is a key of one of
    the two dependency fields, and rollup prints exactly the warnings that
    are not unresolved imports, in their order. *)

From stdpp Require Import base strings list.

Local Open Scope string_scope.

Module Rollup.

(** The fields of [package.json] the configuration reads; [None] is a
    missing (or [null]) field. *)
Module Pkg.
Record t := {
  dependencies : option (list (string * string));
  peerDependencies : option (list (string * string))
}.
End Pkg.

(** [Object.keys(o)] *)
Definition object_keys {V} (o : list (string * V)) : list string := map fst o.

(** [field || {}] *)
Definition or_empty {V} (o : option (list (string * V))) : list (string * V) := default [] o.

(** [external] (lines 8-11). *)
Definition external (pkg : Pkg.t) : list string :=
  object_keys (or_empty (Pkg.dependencies pkg)) ++ object_keys (or_empty (Pkg.peerDependencies pkg)).

(** A rollup warning: its [code], when it has one, and its text. *)
Module Warning.
Record t := { code : option string; message : string }.
End Warning.

(** [onwarn(warning, warn)] (lines 24-27): [Some w] is the call [warn(w)],
    [None] the early [return]. *)
Definition onwarn (warning : Warning.t) : option Warning.t :=
  if bool_decide (Warning.code warning = Some "UNRESOLVED_IMPORT") then None
  else Some warning.

(** Rollup calls [onwarn] on each warning of the build, in order, and
    prints what [warn] receives. *)
Definition printed (ws : list Warning.t) : list Warning.t := omap onwarn ws.

Inductive format := Esm | Cjs.

Module Output.
Record t := {
  dir : string;
  format : format;
  preserveModules : bool;
  sourcemap : bool;
  exports : option string
}.
End Output.

(** The options given to [rollup-plugin-typescript2] (lines 29-40). *)
Module TsOptions.
Record t := {
  declaration : bool;
  declarationDir : string;
  outDir : string;
  emitDeclarationOnly : bool;
  useTsconfigDeclarationDir : bool;
  clean : bool
}.
End TsOptions.

Module RollupOptions.
Record t := {
  input : list (string * string);
  external : list string;
  output : list Output.t;
  plugins : list TsOptions.t
}.
End RollupOptions.

(** The exported configuration (lines 13-43), for the parsed [pkg];
    [onwarn] is the function above. *)
Definition config (pkg : Pkg.t) : list RollupOptions.t :=
  [{| RollupOptions.input := [("index", "src/index.ts"); ("provider/index", "src/provider/index.ts")];
      RollupOptions.external := external pkg;
      RollupOptions.output :=
        [{| Output.dir := "dist/esm"; Output.format := Esm; Output.preserveModules := true;
            Output.sourcemap := false; Output.exports := None |};
         {| Output.dir := "dist/cjs"; Output.format := Cjs; Output.preserveModules := true;
            Output.sourcemap := false; Output.exports := Some "named" |}];
      RollupOptions.plugins :=
        [{| TsOptions.declaration := true; TsOptions.declarationDir := "dist/types";
            TsOptions.outDir := "dist/esm"; TsOptions.emitDeclarationOnly := false;
            TsOptions.useTsconfigDeclarationDir := true; TsOptions.clean := true |}] |}].

(** ** Theorems *)

Lemma elem_of_object_keys {V} (o : list (string * V)) m :
  m ∈ object_keys o <-> exists v, (m, v) ∈ o.
Proof.
  unfold object_keys. rewrite list_elem_of_fmap. split.
  - intros [[k v] [-> Hin]]. by exists v.
  - intros [v Hin]. by exists (m, v).
Qed.

(** C38: a module is left external by the build exactly when it is a key
    of the package's [dependencies] or of its [peerDependencies], a
    missing field counting as empty; the dependencies come first, in the
    order of the package file. *)
Theorem external_spec (pkg : Pkg.t) c m :
  c ∈ config pkg ->
  (m ∈ RollupOptions.external c <->
   (exists v, (m, v) ∈ or_empty (Pkg.dependencies pkg)) \/
   (exists v, (m, v) ∈ or_empty (Pkg.peerDependencies pkg))) /\
  take (length (or_empty (Pkg.dependencies pkg))) (external pkg) =
    object_keys (or_empty (Pkg.dependencies pkg)).
Proof.
  intros Hc. apply list_elem_of_singleton in Hc as ->. split.
  - simpl. unfold external. by rewrite elem_of_app, !elem_of_object_keys.
  - unfold external, object_keys. rewrite take_app_length'; [done|]. by rewrite length_map.
Qed.

(** C39: the build prints exactly the warnings that are not unresolved
    imports, in the order rollup reports them: running [onwarn] on each
    warning is filtering the list. *)
Theorem printed_spec (ws : list Warning.t) :
  printed ws = filter (fun w => Warning.code w <> Some "UNRESOLVED_IMPORT") ws.
Proof.
  induction ws as [|w ws IH]; [done|]. unfold printed, onwarn in *. simpl.
  case_bool_decide as Hc.
  - rewrite filter_cons_False by (by intros []). done.
  - rewrite filter_cons_True by done. by f_equal.
Qed.

(** A package with two dependencies and no [peerDependencies]. *)
Definition demo_pkg : Pkg.t :=
  {| Pkg.dependencies := Some [("axios", "^1.7.0"); ("mime-types", "^2.1.35")];
     Pkg.peerDependencies := None |}.

Lemma external_spec_witness :
  exists c, c ∈ config demo_pkg /\
  (("axios" ∈ RollupOptions.external c <->
    (exists v, ("axios", v) ∈ or_empty (Pkg.dependencies demo_pkg)) \/
    (exists v, ("axios", v) ∈ or_empty (Pkg.peerDependencies demo_pkg))) /\
   take (length (or_empty (Pkg.dependencies demo_pkg))) (external demo_pkg) =
     object_keys (or_empty (Pkg.dependencies demo_pkg))).
Proof.
  eexists. split; [left|]. apply (external_spec demo_pkg). left.
Defined.

End Rollup.
